(** * XRPL freelance milestone escrow backend: a shallow embedding

    The development follows the layout of [backend/app]:
    - [Base64] and [Sha256]: the two standard-library codecs that
      [conditions.py] calls ([base64.b64encode], [hashlib.sha256]);
    - [Conditions]: [generate_condition_pair] over an entropy tape;
    - [Storage]: the [milestones] table of [db.py] and the four statements
      of [storage.py];
    - [Escrows]: [create_milestone_escrow] and [approve_milestone] over an
      abstract ledger gateway.

    Definitions come first, the theorems about them afterwards. *)

From Stdlib Require Import ZArith List String Ascii Bool Lia.
From Stdlib Require Import Init.Byte.
From Stdlib Require Import Sorting.Permutation Sorting.Sorted.
Import ListNotations.

Local Open Scope string_scope.
Local Open Scope list_scope.
Local Open Scope Z_scope.

(* ================================================================== *)
(** ** Bytes *)

Module Bytes.

(** A Python [bytes] object is a [list byte]; arithmetic on a byte goes
    through [Z]. *)
Definition to_Z (b : byte) : Z := Z.of_N (Byte.to_N b).

Definition of_Z (z : Z) : byte :=
  match Byte.of_N (Z.to_N (z mod 256)) with
  | Some b => b
  | None => x00
  end.

Definition of_ascii (c : ascii) : byte := of_Z (Z.of_N (N_of_ascii c)).

Fixpoint of_string (s : string) : list byte :=
  match s with
  | EmptyString => []
  | String c rest => of_ascii c :: of_string rest
  end.

End Bytes.

(* ================================================================== *)
(** ** base64 (RFC 4648, standard alphabet, [=] padding) *)

Module Base64.

Definition alphabet : string :=
  "ABCDEFGHIJKLMNOPQRSTUVWXYZabcdefghijklmnopqrstuvwxyz0123456789+/".

Definition pad : ascii := "="%char.

(** The character of a sextet. *)
Definition char_of (n : Z) : ascii :=
  match String.get (Z.to_nat n) alphabet with
  | Some c => c
  | None => pad
  end.

(** The sextet of a character, [None] outside the alphabet. *)
Definition value_of (c : ascii) : option Z :=
  let n := Z.of_N (N_of_ascii c) in
  if (65 <=? n) && (n <=? 90) then Some (n - 65)
  else if (97 <=? n) && (n <=? 122) then Some (n - 71)
  else if (48 <=? n) && (n <=? 57) then Some (n + 4)
  else if n =? 43 then Some 62
  else if n =? 47 then Some 63
  else None.

(** The 24-bit group of three bytes and its four sextets. *)
Definition group (a b c : byte) : Z :=
  Bytes.to_Z a * 65536 + Bytes.to_Z b * 256 + Bytes.to_Z c.

Definition sextet (i : Z) (g : Z) : Z := (g / 64 ^ (3 - i)) mod 64.

Definition ungroup (s0 s1 s2 s3 : Z) : Z :=
  s0 * 262144 + s1 * 4096 + s2 * 64 + s3.

(** [base64.b64encode(bs).decode("utf-8")] *)
Fixpoint b64encode (bs : list byte) : string :=
  match bs with
  | [] => EmptyString
  | [a] =>
      let g := group a x00 x00 in
      String (char_of (sextet 0 g)) (String (char_of (sextet 1 g))
        (String pad (String pad EmptyString)))
  | [a; b] =>
      let g := group a b x00 in
      String (char_of (sextet 0 g)) (String (char_of (sextet 1 g))
        (String (char_of (sextet 2 g)) (String pad EmptyString)))
  | a :: b :: c :: rest =>
      let g := group a b c in
      String (char_of (sextet 0 g)) (String (char_of (sextet 1 g))
        (String (char_of (sextet 2 g)) (String (char_of (sextet 3 g))
          (b64encode rest))))
  end.

(** The strict decoder: quadruples of alphabet characters, padding only
    in the last quadruple. *)
Fixpoint b64decode (s : string) : option (list byte) :=
  match s with
  | EmptyString => Some []
  | String c0 (String c1 (String c2 (String c3 rest))) =>
      match value_of c0, value_of c1 with
      | Some s0, Some s1 =>
          if Ascii.eqb c3 pad then
            match rest with
            | EmptyString =>
                if Ascii.eqb c2 pad then
                  Some [Bytes.of_Z (ungroup s0 s1 0 0 / 65536)]
                else
                  match value_of c2 with
                  | Some s2 =>
                      let g := ungroup s0 s1 s2 0 in
                      Some [Bytes.of_Z (g / 65536); Bytes.of_Z (g / 256)]
                  | None => None
                  end
            | String _ _ => None
            end
          else
            match value_of c2, value_of c3, b64decode rest with
            | Some s2, Some s3, Some tl =>
                let g := ungroup s0 s1 s2 s3 in
                Some (Bytes.of_Z (g / 65536) :: Bytes.of_Z (g / 256)
                        :: Bytes.of_Z g :: tl)
            | _, _, _ => None
            end
      | _, _ => None
      end
  | _ => None
  end.

End Base64.

(* ================================================================== *)
(** ** SHA-256 (FIPS 180-4) on 32-bit words held in [Z] *)

Module Sha256.

Definition mask32 : Z := 0xFFFFFFFF.
Definition wrap (x : Z) : Z := x mod 2 ^ 32.
Definition add32 (x y : Z) : Z := wrap (x + y).
Definition rotr (n x : Z) : Z :=
  wrap (Z.lor (Z.shiftr x n) (Z.shiftl x (32 - n))).
Definition shr (n x : Z) : Z := Z.shiftr x n.
Definition not32 (x : Z) : Z := Z.lxor x mask32.

Definition Ch (x y z : Z) : Z := Z.lxor (Z.land x y) (Z.land (not32 x) z).
Definition Maj (x y z : Z) : Z :=
  Z.lxor (Z.lxor (Z.land x y) (Z.land x z)) (Z.land y z).
Definition Sigma0 (x : Z) : Z := Z.lxor (Z.lxor (rotr 2 x) (rotr 13 x)) (rotr 22 x).
Definition Sigma1 (x : Z) : Z := Z.lxor (Z.lxor (rotr 6 x) (rotr 11 x)) (rotr 25 x).
Definition sigma0 (x : Z) : Z := Z.lxor (Z.lxor (rotr 7 x) (rotr 18 x)) (shr 3 x).
Definition sigma1 (x : Z) : Z := Z.lxor (Z.lxor (rotr 17 x) (rotr 19 x)) (shr 10 x).

(** The round constants are the first 32 bits of the fractional parts
    of the cube roots of the first 64 primes, the initial chaining value
    those of the square roots of the first 8. *)
Definition is_prime (n : Z) : bool :=
  (1 <? n)
  && forallb (fun d => negb (n mod d =? 0))
             (map Z.of_nat (seq 2 (Z.to_nat n - 2))).

Definition primes : list Z := filter is_prime (map Z.of_nat (seq 2 310)).

(** Integer cube root of [x < 2 ^ 120], one bit at a time. *)
Definition icbrt (x : Z) : Z :=
  fold_left (fun r b =>
               let r' := r + 2 ^ Z.of_nat b in
               if r' * r' * r' <=? x then r' else r)
            (rev (seq 0 40)) 0.

Definition cube_root_bits (p : Z) : Z := wrap (icbrt (p * 2 ^ 96)).
Definition square_root_bits (p : Z) : Z := wrap (Z.sqrt (p * 2 ^ 64)).

Definition K : list Z := Eval vm_compute in map cube_root_bits primes.

(** The eight working variables, also the chaining value. *)
Record regs : Type := mkRegs {
  ra : Z; rb : Z; rc : Z; rd : Z; re : Z; rf : Z; rg : Z; rh : Z
}.

Definition regs_of (l : list Z) : regs :=
  mkRegs (nth 0 l 0) (nth 1 l 0) (nth 2 l 0) (nth 3 l 0)
         (nth 4 l 0) (nth 5 l 0) (nth 6 l 0) (nth 7 l 0).

Definition H0 : regs :=
  Eval vm_compute in regs_of (map square_root_bits (firstn 8 primes)).

(** Padding: a [1] bit, zeros up to 56 mod 64, the bit length on 8 bytes. *)
Definition be_bytes (n : nat) (x : Z) : list Z :=
  map (fun i => (x / 256 ^ Z.of_nat (n - 1 - i)) mod 256) (seq 0 n).

Definition pad (msg : list Z) : list Z :=
  let len := Z.of_nat (List.length msg) in
  let zeros := Z.to_nat ((55 - len) mod 64) in
  msg ++ [128] ++ repeat 0 zeros ++ be_bytes 8 (8 * len).

Fixpoint be_words (fuel : nat) (bs : list Z) : list Z :=
  match fuel, bs with
  | S fuel', a :: b :: c :: d :: rest =>
      (a * 16777216 + b * 65536 + c * 256 + d) :: be_words fuel' rest
  | _, _ => []
  end.

(** The message schedule, grown from 16 to 64 words. *)
Fixpoint schedule (n : nat) (w : list Z) : list Z :=
  match n with
  | O => w
  | S n' =>
      let t := List.length w in
      let x := add32 (add32 (sigma1 (nth (t - 2) w 0)) (nth (t - 7) w 0))
                     (add32 (sigma0 (nth (t - 15) w 0)) (nth (t - 16) w 0)) in
      schedule n' (w ++ [x])
  end.

Definition round (r : regs) (kw : Z * Z) : regs :=
  let t1 := add32 (add32 (add32 (rh r) (Sigma1 (re r)))
                         (add32 (Ch (re r) (rf r) (rg r)) (fst kw))) (snd kw) in
  let t2 := add32 (Sigma0 (ra r)) (Maj (ra r) (rb r) (rc r)) in
  mkRegs (add32 t1 t2) (ra r) (rb r) (rc r) (add32 (rd r) t1) (re r) (rf r) (rg r).

Definition compress (h : regs) (block : list Z) : regs :=
  let w := schedule 48 (be_words 16 block) in
  let r := fold_left round (combine K w) h in
  mkRegs (add32 (ra h) (ra r)) (add32 (rb h) (rb r))
         (add32 (rc h) (rc r)) (add32 (rd h) (rd r))
         (add32 (re h) (re r)) (add32 (rf h) (rf r))
         (add32 (rg h) (rg r)) (add32 (rh h) (rh r)).

Fixpoint blocks (fuel : nat) (h : regs) (bs : list Z) : regs :=
  match fuel with
  | O => h
  | S fuel' =>
      match bs with
      | [] => h
      | _ => blocks fuel' (compress h (firstn 64 bs)) (skipn 64 bs)
      end
  end.

Definition word_bytes (x : Z) : list byte :=
  [ Bytes.of_Z (x / 16777216); Bytes.of_Z (x / 65536);
    Bytes.of_Z (x / 256); Bytes.of_Z x ].

Definition digest_of (r : regs) : list byte :=
  word_bytes (ra r) ++ word_bytes (rb r) ++ word_bytes (rc r)
  ++ word_bytes (rd r) ++ word_bytes (re r) ++ word_bytes (rf r)
  ++ word_bytes (rg r) ++ word_bytes (rh r).

(** [hashlib.sha256(msg).digest()] *)
Definition sha256 (msg : list byte) : list byte :=
  let padded := pad (map Bytes.to_Z msg) in
  digest_of (blocks (List.length padded) H0 padded).

End Sha256.

(* ================================================================== *)
(** ** conditions.py *)

Module Conditions.

(** The operating system's entropy, as a tape of bytes and a read
    position: every draw consumes fresh positions. *)
Record Rng : Type := mkRng { tape : nat -> byte; pos : nat }.

(** [secrets.token_bytes(n)] *)
Definition token_bytes (n : nat) (g : Rng) : list byte * Rng :=
  (map (tape g) (seq (pos g) n), mkRng (tape g) (pos g + n)).

(** [generate_condition_pair()]: the pair [(condition_b64, fulfillment_b64)]. *)
Definition generate_condition_pair (g : Rng) : (string * string) * Rng :=
  let (secret, g') := token_bytes 32 g in
  let condition := Sha256.sha256 secret in
  ((Base64.b64encode condition, Base64.b64encode secret), g').

End Conditions.

(* ================================================================== *)
(** ** Python values: exceptions, results, dictionaries *)

Inductive Exn : Type :=
| RuntimeError (msg : string)
| KeyError (key : string)
| IntegrityError (msg : string)   (* sqlite3.IntegrityError *)
| XRPLException (msg : string)    (* anything the xrpl library raises *)
| OverflowError (msg : string)    (* sqlite3, binding a parameter *)
| XRPLModelException (msg : string).  (* xrpl, constructing a model *)

Inductive Result (A : Type) : Type :=
| Ok (a : A)
| Raise (e : Exn).
Arguments Ok {A} a.
Arguments Raise {A} e.

Inductive Value : Type :=
| VText (s : string)
| VInt (z : Z)
| VNull.

(** A [dict] with string keys, in insertion order. *)
Definition Dict : Type := list (string * Value).

Fixpoint dict_get (k : string) (d : Dict) : option Value :=
  match d with
  | [] => None
  | (k', v) :: d' => if String.eqb k k' then Some v else dict_get k d'
  end.

Definition dict_keys (d : Dict) : list string := map fst d.

(* ================================================================== *)
(** ** The xrpl library, as far as [escrows.py] uses it *)

Module Xrpl.

Record Wallet : Type := mkWallet { classic_address : string; seed : string }.

Inductive Transaction : Type :=
| EscrowCreate (account destination amount condition : string)
| EscrowFinish (account owner : string) (offer_sequence : Z)
               (fulfillment : string).

(** The [condition] and [fulfillment] fields of a transaction, [None]
    where the transaction type has no such field set. *)
Definition condition_of (tx : Transaction) : option string :=
  match tx with
  | EscrowCreate _ _ _ c => Some c
  | EscrowFinish _ _ _ _ => None
  end.

Definition fulfillment_of (tx : Transaction) : option string :=
  match tx with
  | EscrowCreate _ _ _ _ => None
  | EscrowFinish _ _ _ f => Some f
  end.

(** What the constructor of [EscrowFinish] checks: a condition and a
    fulfillment go together, an empty text counting as absent.  The
    exception carries the text of the error dict. *)
Definition given (x : option string) : bool :=
  match x with
  | Some (String _ _) => true
  | _ => false
  end.

Definition fulfillment_without_condition : Exn :=
  XRPLModelException
    "{'condition': 'If fulfillment is specified, condition must also be specified.'}".

Definition condition_without_fulfillment : Exn :=
  XRPLModelException
    "{'fulfillment': 'If condition is specified, fulfillment must also be specified.'}".

Definition escrow_finish_errors (condition fulfillment : option string)
    : option Exn :=
  if given condition && negb (given fulfillment)
  then Some condition_without_fulfillment
  else if given fulfillment && negb (given condition)
  then Some fulfillment_without_condition
  else None.

(** The exception a model raises when it is constructed, if any.  An
    [EscrowFinish] here is one built without the [condition] keyword, as
    escrows.py builds it. *)
Definition model_errors (tx : Transaction) : option Exn :=
  match tx with
  | EscrowCreate _ _ _ _ => None
  | EscrowFinish _ _ _ f => escrow_finish_errors None (Some f)
  end.

(** [resp.result], restricted to the keys that are read. *)
Record TxJson : Type := mkTxJson { tj_Sequence : option Z }.

Record Response : Type := mkResponse {
  Sequence : option Z;
  tx_json : option TxJson;
  hash : option string
}.

End Xrpl.

(* ================================================================== *)
(** ** db.py: the [milestones] table and the connection scope *)

Module Db.

Inductive Status : Type := LOCKED | RELEASED.

Definition status_text (s : Status) : string :=
  match s with LOCKED => "LOCKED" | RELEASED => "RELEASED" end.

Definition is_locked (s : Status) : bool :=
  match s with LOCKED => true | RELEASED => false end.

(** SQLite keeps an INTEGER in a signed 64-bit cell, and sqlite3 refuses
    to bind a Python int outside that range. *)
Definition int64 (z : Z) : bool := (- 2 ^ 63 <=? z) && (z <? 2 ^ 63).

Definition wrap64 (z : Z) : Z := (z + 2 ^ 63) mod 2 ^ 64 - 2 ^ 63.

Arguments int64 : simpl never.
Arguments wrap64 : simpl never.

(** One row of [milestones], column by column.  The [offer_sequence]
    cell is read as a signed 64-bit integer: the value comes from a
    request body or a ledger response, where any integer can stand.  The
    rowid and the two times are counters and clock readings in seconds,
    taken to fit.  The [status] column only ever receives the two texts
    the statements write. *)
Record Row : Type := mkRow {
  rowid : Z;
  escrow_tx_hash : string;
  owner_address : string;
  offer_sequence_cell : Z;
  fulfillment_b64 : string;
  status : Status;
  created_at : Z;
  released_tx_hash : option string;
  released_at : option Z
}.

Definition offer_sequence (r : Row) : Z := wrap64 (offer_sequence_cell r).

Definition Table : Type := list Row.

(** [init_db]: [CREATE TABLE IF NOT EXISTS] and [CREATE UNIQUE INDEX IF NOT
    EXISTS] on the database file, [None] when the file is new. *)
Definition init_db (file : option Table) : Table :=
  match file with
  | None => []
  | Some t => t
  end.

Definition key (r : Row) : string * Z := (owner_address r, offer_sequence r).

(** [WHERE owner_address = ? AND offer_sequence = ?] *)
Definition matches (o : string) (q : Z) (r : Row) : bool :=
  String.eqb (owner_address r) o && (offer_sequence r =? q).

(** [idx_milestone_owner_seq]: no two rows share [(owner_address,
    offer_sequence)]. *)
Definition idx_milestone_owner_seq (t : Table) : Prop := NoDup (map key t).

(** [INTEGER PRIMARY KEY AUTOINCREMENT] *)
Definition next_rowid (t : Table) : Z :=
  1 + fold_right (fun r m => Z.max (rowid r) m) 0 t.

(** Everything a request can read or change outside its own frame: the
    database file, the wall clock, the entropy source, and the log of
    the transactions handed to the ledger. *)
Record Sys : Type := mkSys {
  db : Table;
  clock : Z;
  rng : Conditions.Rng;
  submitted : list Xrpl.Transaction
}.

Definition set_db (t : Table) (s : Sys) : Sys :=
  mkSys t (clock s) (rng s) (submitted s).

Definition set_rng (g : Conditions.Rng) (s : Sys) : Sys :=
  mkSys (db s) (clock s) g (submitted s).

(** Computations that read and write [Sys] and may raise. *)
Definition M (A : Type) : Type := Sys -> Result A * Sys.

Definition ret {A : Type} (a : A) : M A := fun s => (Ok a, s).

Definition raise {A : Type} (e : Exn) : M A := fun s => (Raise e, s).

Definition bind {A B : Type} (m : M A) (k : A -> M B) : M B :=
  fun s =>
    match m s with
    | (Ok a, s') => k a s'
    | (Raise e, s') => (Raise e, s')
    end.

(** [int(time.time())] *)
Definition time_time : M Z := fun s => (Ok (clock s), s).

(** [with db_conn() as conn: body]: the body's writes are committed when
    it leaves normally; when it raises, the connection is closed without
    a commit and the table is as before. *)
Definition db_conn {A : Type} (body : Table -> Result (A * Table)) : M A :=
  fun s =>
    match body (db s) with
    | Ok (a, t') => (Ok a, set_db t' s)
    | Raise e => (Raise e, s)
    end.

End Db.

Notation "x <- m ;; k" := (Db.bind m (fun x => k))
  (at level 61, m at next level, right associativity).
Notation "m ;;; k" := (Db.bind m (fun _ => k))
  (at level 61, right associativity).

(* ================================================================== *)
(** ** storage.py *)

Module Storage.
Import Db.

(** What sqlite3 raises when an INSERT breaks [idx_milestone_owner_seq]. *)
Definition unique_violation : Exn :=
  IntegrityError
    "UNIQUE constraint failed: milestones.owner_address, milestones.offer_sequence".

(** What sqlite3 raises when [offer_sequence] does not fit a cell. *)
Definition overflow : Exn :=
  OverflowError "Python int too large to convert to SQLite INTEGER".

(** [INSERT INTO milestones (...) VALUES (?, ?, ?, ?, 'LOCKED', ?)] *)
Definition insert_milestone (tx o : string) (q : Z) (f : string) (now : Z)
    (t : Table) : Result (unit * Table) :=
  if int64 q then
    if existsb (matches o q) t then Raise unique_violation
    else
      Ok (tt, t ++ [mkRow (next_rowid t) tx o q f LOCKED now None None])
  else Raise overflow.

(** [SELECT fulfillment_b64 ... WHERE owner_address = ? AND
    offer_sequence = ? AND status = 'LOCKED'] *)
Definition select_locked (o : string) (q : Z) (t : Table) : list Row :=
  filter (fun r => matches o q r && is_locked (status r)) t.

Definition fetchone (rows : list Row) : option Row := hd_error rows.

(** [UPDATE milestones SET status = 'RELEASED', released_tx_hash = ?,
    released_at = ? WHERE owner_address = ? AND offer_sequence = ?] *)
Definition release_row (h : string) (now : Z) (r : Row) : Row :=
  mkRow (rowid r) (escrow_tx_hash r) (owner_address r)
        (offer_sequence_cell r) (fulfillment_b64 r) RELEASED (created_at r)
        (Some h) (Some now).

Definition update_released (h : string) (now : Z) (o : string) (q : Z)
    (t : Table) : Table :=
  map (fun r => if matches o q r then release_row h now r else r) t.

(** The cursor's [rowcount] after that UPDATE: the number of rows the
    WHERE clause selects.  [mark_released] does not read it. *)
Definition rowcount_released (o : string) (q : Z) (t : Table) : nat :=
  List.length (filter (matches o q) t).

(** [ORDER BY created_at DESC]; rows with equal [created_at] stay in
    table order. *)
Fixpoint insert_desc (r : Row) (l : list Row) : list Row :=
  match l with
  | [] => [r]
  | x :: l' =>
      if created_at x <=? created_at r then r :: l
      else x :: insert_desc r l'
  end.

Definition order_by_created_at_desc (t : Table) : list Row :=
  fold_right insert_desc [] t.

Definition opt_text (o : option string) : Value :=
  match o with Some s => VText s | None => VNull end.

Definition opt_int (o : option Z) : Value :=
  match o with Some z => VInt z | None => VNull end.

(** [dict(r)] for a row of the seven selected columns. *)
Definition summary (r : Row) : Dict :=
  [ ("escrow_tx_hash", VText (escrow_tx_hash r));
    ("owner_address", VText (owner_address r));
    ("offer_sequence", VInt (offer_sequence r));
    ("status", VText (status_text (status r)));
    ("created_at", VInt (created_at r));
    ("released_tx_hash", opt_text (released_tx_hash r));
    ("released_at", opt_int (released_at r)) ].

Definition save_milestone (escrow_tx_hash owner_address : string)
    (offer_sequence : Z) (fulfillment_b64 : string) : M unit :=
  now <- time_time ;;
  db_conn (insert_milestone escrow_tx_hash owner_address offer_sequence
                            fulfillment_b64 now).

Definition get_fulfillment (owner_address : string) (offer_sequence : Z)
    : M (option string) :=
  db_conn (fun conn =>
    if int64 offer_sequence then
      let row := fetchone (select_locked owner_address offer_sequence conn) in
      Ok (match row with
          | Some r => Some (Db.fulfillment_b64 r)
          | None => None
          end, conn)
    else Raise overflow).

Definition mark_released (owner_address : string) (offer_sequence : Z)
    (released_tx_hash : string) : M unit :=
  now <- time_time ;;
  db_conn (fun conn =>
    if int64 offer_sequence then
      Ok (tt, update_released released_tx_hash now owner_address
                              offer_sequence conn)
    else Raise overflow).

Definition list_milestones : M (list Dict) :=
  db_conn (fun conn =>
    let rows := order_by_created_at_desc conn in
    Ok (map summary rows, conn)).

End Storage.

(* ================================================================== *)
(** ** escrows.py *)

Module Escrows.
Import Db Storage.

(** The ledger side.  [wallet_of_seed] is [Wallet(seed=..., sequence=0)],
    which raises on a seed the library cannot decode.  [ledger] is the
    answer to [submit_and_wait]: the response or the exception, and the
    state of the database, clock and entropy when the call returns
    (other requests commit while this one waits on the network; a ledger
    that runs alone returns them untouched). *)
Record Client : Type := mkClient {
  wallet_of_seed : string -> Result Xrpl.Wallet;
  ledger : Xrpl.Transaction -> Xrpl.Wallet -> Sys -> Result Xrpl.Response * Sys
}.

(** The submission step for a transaction as the code writes it: the
    model is constructed, which raises without a network call when its
    fields are rejected, and then handed to [submit_and_wait]. *)
Definition submit (client : Client) (tx : Xrpl.Transaction)
    (w : Xrpl.Wallet) (s : Sys) : Result Xrpl.Response * Sys :=
  match Xrpl.model_errors tx with
  | Some e => (Raise e, s)
  | None => ledger client tx w s
  end.

(** The state after a ledger call that started in [s] and returned in
    [s']: the transaction is appended to the log kept in [s]. *)
Definition logged (tx : Xrpl.Transaction) (s s' : Sys) : Sys :=
  mkSys (db s') (clock s') (rng s') (submitted s ++ [tx]).

(** No other request touches the database while [submit] waits. *)
Definition runs_alone (client : Client) : Prop :=
  forall tx w s, db (snd (submit client tx w s)) = db s.

Section WithClient.

Variable client : Client.

Definition Wallet (seed : string) : M Xrpl.Wallet :=
  fun s => (wallet_of_seed client seed, s).

(** [EscrowCreate(...)], [EscrowFinish(...)]: the constructor returns
    the model or raises. *)
Definition construct (tx : Xrpl.Transaction) : M Xrpl.Transaction :=
  match Xrpl.model_errors tx with
  | Some e => raise e
  | None => ret tx
  end.

Definition submit_and_wait (tx : Xrpl.Transaction) (wallet : Xrpl.Wallet)
    : M Xrpl.Response :=
  fun s =>
    let (out, s') := ledger client tx wallet s in
    (out, logged tx s s').

Definition generate_condition_pair : M (string * string) :=
  fun s =>
    let (pair, g') := Conditions.generate_condition_pair (rng s) in
    (Ok pair, set_rng g' s).

(** [resp.result["hash"]] *)
Definition result_hash (resp : Xrpl.Response) : M string :=
  match Xrpl.hash resp with
  | Some h => ret h
  | None => raise (KeyError "hash")
  end.

(** [resp.result.get("Sequence")], then
    [resp.result.get("tx_json", {}).get("Sequence")]. *)
Definition result_sequence (resp : Xrpl.Response) : option Z :=
  match Xrpl.Sequence resp with
  | Some q => Some q
  | None =>
      match Xrpl.tx_json resp with
      | Some tj => Xrpl.tj_Sequence tj
      | None => None
      end
  end.

(** [not fulfillment_b64] for a [str | None]. *)
Definition falsy (f : option string) : bool :=
  match f with
  | None => true
  | Some EmptyString => true
  | Some (String _ _) => false
  end.

(** The text of a [str | None] known not to be [None]. *)
Definition text_of (f : option string) : string :=
  match f with Some t => t | None => EmptyString end.

Definition create_milestone_escrow
    (employer_seed freelancer_address amount_drops : string) : M Dict :=
  employer_wallet <- Wallet employer_seed ;;
  pair <- generate_condition_pair ;;
  let condition_b64 := fst pair in
  let fulfillment_b64 := snd pair in
  escrow_tx <- construct
    (Xrpl.EscrowCreate (Xrpl.classic_address employer_wallet)
                       freelancer_address amount_drops condition_b64) ;;
  resp <- submit_and_wait escrow_tx employer_wallet ;;
  let owner_address := Xrpl.classic_address employer_wallet in
  match result_sequence resp with
  | None =>
      raise (RuntimeError
        "Could not determine OfferSequence/Sequence for created escrow.")
  | Some offer_sequence =>
      h <- result_hash resp ;;
      save_milestone h owner_address offer_sequence fulfillment_b64 ;;;
      h' <- result_hash resp ;;
      ret [ ("escrow_tx_hash", VText h');
            ("owner_address", VText owner_address);
            ("offer_sequence", VInt offer_sequence) ]
  end.

Definition approve_milestone (employer_seed owner_address : string)
    (offer_sequence : Z) : M Dict :=
  employer_wallet <- Wallet employer_seed ;;
  fulfillment_b64 <- get_fulfillment owner_address offer_sequence ;;
  if falsy fulfillment_b64 then
    raise (RuntimeError
      "No stored fulfillment found (already released, or wrong owner/sequence).")
  else
    finish_tx <- construct
      (Xrpl.EscrowFinish (Xrpl.classic_address employer_wallet)
                         owner_address offer_sequence
                         (text_of fulfillment_b64)) ;;
    resp <- submit_and_wait finish_tx employer_wallet ;;
    h <- result_hash resp ;;
    mark_released owner_address offer_sequence h ;;;
    h' <- result_hash resp ;;
    ret [ ("tx_hash", VText h') ].

End WithClient.

End Escrows.

(* ================================================================== *)
(** ** The operations of the store, as calls *)

Module Calls.
Import Db Storage.

Inductive StoreCall : Type :=
| CallSave (escrow_tx_hash owner_address : string) (offer_sequence : Z)
           (fulfillment_b64 : string)
| CallGet (owner_address : string) (offer_sequence : Z)
| CallMark (owner_address : string) (offer_sequence : Z)
           (released_tx_hash : string)
| CallList.

(** The state a call leaves behind, whether it returns or raises. *)
Definition after (c : StoreCall) (s : Sys) : Sys :=
  match c with
  | CallSave tx o q f => snd (save_milestone tx o q f s)
  | CallGet o q => snd (get_fulfillment o q s)
  | CallMark o q h => snd (mark_released o q h s)
  | CallList => snd (list_milestones s)
  end.

Definition after_all (cs : list StoreCall) (s : Sys) : Sys :=
  fold_left (fun s' c => after c s') cs s.

(** Row [r'] is row [r] with at most the three release columns changed. *)
Definition same_identity (r r' : Row) : Prop :=
  rowid r' = rowid r
  /\ escrow_tx_hash r' = escrow_tx_hash r
  /\ owner_address r' = owner_address r
  /\ offer_sequence r' = offer_sequence r
  /\ fulfillment_b64 r' = fulfillment_b64 r
  /\ created_at r' = created_at r.

(** A row with its fulfillment blanked out. *)
Definition redact (r : Row) : Row :=
  mkRow (rowid r) (escrow_tx_hash r) (owner_address r)
        (offer_sequence_cell r) EmptyString (status r) (created_at r)
        (released_tx_hash r) (released_at r).

Definition newest_first (a b : Row) : Prop := created_at a >= created_at b.

(** Rows that are RELEASED in [t] are, at the same position of [t'], the
    same milestone and still RELEASED. *)
Definition stays_released (t t' : Table) : Prop :=
  forall i r, nth_error t i = Some r -> status r = RELEASED ->
    exists r', nth_error t' i = Some r' /\ status r' = RELEASED
               /\ same_identity r r'.

(** The columns an UPDATE of [mark_released] writes into a selected row. *)
Definition stamped (h : string) (now : Z) (r' : Row) : Prop :=
  status r' = RELEASED /\ released_tx_hash r' = Some h
  /\ released_at r' = Some now.

Definition not_releasable : Exn :=
  RuntimeError
    "No stored fulfillment found (already released, or wrong owner/sequence).".

End Calls.

(* ================================================================== *)
(** ** Sample data: the scenario of one owner and one escrow *)

Module Samples.
Import Db.

Definition tape0 : nat -> byte := fun n => Bytes.of_Z (7 * Z.of_nat n + 1).

Definition rng0 : Conditions.Rng := Conditions.mkRng tape0 0.

Definition wallet1 : Xrpl.Wallet := Xrpl.mkWallet "rOWNER1" "sEMPLOYER1".

Definition locked_row : Row :=
  mkRow 1 "ESCROWTX1" "rOWNER1" 5 "c2VjcmV0" LOCKED 100 None None.

Definition released_row : Row :=
  mkRow 1 "ESCROWTX1" "rOWNER1" 5 "c2VjcmV0" RELEASED 100
        (Some "RELTX1") (Some 150).

Definition other_row : Row :=
  mkRow 2 "ESCROWTX2" "rOWNER2" 9 "b3RoZXI=" LOCKED 120 None None.

Definition sys_empty : Sys := mkSys (init_db None) 90 rng0 [].
Definition sys_locked : Sys := mkSys [locked_row; other_row] 200 rng0 [].
Definition sys_released : Sys := mkSys [released_row; other_row] 200 rng0 [].

Definition created : Xrpl.Response :=
  Xrpl.mkResponse (Some 5) None (Some "ESCROWTX1").

Definition finished : Xrpl.Response :=
  Xrpl.mkResponse None None (Some "RELTX2").

Definition answer (tx : Xrpl.Transaction) : Xrpl.Response :=
  match tx with
  | Xrpl.EscrowCreate _ _ _ _ => created
  | Xrpl.EscrowFinish _ _ _ _ => finished
  end.

Definition wallets (seed : string) : Result Xrpl.Wallet :=
  Ok (Xrpl.mkWallet "rOWNER1" seed).

(** A ledger that settles everything, with no other request running. *)
Definition ledger_up : Escrows.Client :=
  Escrows.mkClient wallets (fun tx _ s => (Ok (answer tx), s)).

(** A ledger that cannot be reached. *)
Definition ledger_down : Escrows.Client :=
  Escrows.mkClient wallets
    (fun _ _ s => (Raise (XRPLException "timeout"), s)).

End Samples.

(* ================================================================== *)
(** ** wallets.py, models.py and main.py *)

Module Main.
Import Db Storage Escrows.

(** A JSON response body. *)
#[warnings="-register-all"] Inductive Json : Type :=
| JNull
| JBool (b : bool)
| JInt (z : Z)
| JStr (s : string)
| JArr (items : list Json)
| JObj (fields : list (string * Json)).

Definition json_of_value (v : Value) : Json :=
  match v with
  | VText s => JStr s
  | VInt z => JInt z
  | VNull => JNull
  end.

Definition json_of_dict (d : Dict) : Json :=
  JObj (map (fun kv => (fst kv, json_of_value (snd kv))) d).

(** [d[k]] *)
Definition getitem (d : Dict) (k : string) : M Value :=
  match dict_get k d with
  | Some v => ret v
  | None => raise (KeyError k)
  end.

(** models.py: the two request bodies. *)
Record CreateMilestoneRequest : Type := mkCreateMilestoneRequest {
  cr_employer_seed : string;
  cr_freelancer_address : string;
  cr_amount_drops : string
}.

Record ApproveMilestoneRequest : Type := mkApproveMilestoneRequest {
  ar_employer_seed : string;
  ar_owner_address : string;
  ar_offer_sequence : Z
}.

(** The testnet faucet of [generate_faucet_wallet(client)]: a funded
    wallet or an exception, and the state when the call returns. *)
Record Faucet : Type := mkFaucet {
  generate_faucet_wallet : Sys -> Result Xrpl.Wallet * Sys
}.

(** No other request touches the database while the faucet is awaited. *)
Definition faucet_alone (faucet : Faucet) : Prop :=
  forall s, db (snd (generate_faucet_wallet faucet s)) = db s.

Section WithServices.

Variable client : Client.
Variable faucet : Faucet.

(** wallets.py *)
Definition create_wallet : M Dict :=
  fun s =>
    let (out, s') := generate_faucet_wallet faucet s in
    let s'' := mkSys (db s') (clock s') (rng s') (submitted s) in
    match out with
    | Ok wallet =>
        (Ok [ ("address", VText (Xrpl.classic_address wallet));
              ("seed", VText (Xrpl.seed wallet)) ], s'')
    | Raise e => (Raise e, s'')
    end.

(** [GET /] *)
Definition root : M Json :=
  ret (JObj [ ("status", JStr "ok");
              ("message",
               JStr "XRPL Freelance Milestone Escrow backend running") ]).

(** [POST /api/wallet], serialised through [CreateWalletResponse]. *)
Definition new_wallet : M Json :=
  d <- create_wallet ;;
  address <- getitem d "address" ;;
  seed <- getitem d "seed" ;;
  ret (JObj [ ("address", json_of_value address);
              ("seed", json_of_value seed) ]).

(** [POST /api/milestone/create] *)
Definition create_milestone (req : CreateMilestoneRequest) : M Json :=
  result <- create_milestone_escrow client (cr_employer_seed req)
              (cr_freelancer_address req) (cr_amount_drops req) ;;
  escrow_tx_hash <- getitem result "escrow_tx_hash" ;;
  owner_address <- getitem result "owner_address" ;;
  offer_sequence <- getitem result "offer_sequence" ;;
  ret (JObj [ ("success", JBool true);
              ("milestone",
               JObj [ ("status", JStr "LOCKED");
                      ("escrow_tx_hash", json_of_value escrow_tx_hash);
                      ("owner_address", json_of_value owner_address);
                      ("offer_sequence", json_of_value offer_sequence) ]) ]).

(** [POST /api/milestone/approve] *)
Definition approve_milestone_endpoint (req : ApproveMilestoneRequest)
    : M Json :=
  result <- approve_milestone client (ar_employer_seed req)
              (ar_owner_address req) (ar_offer_sequence req) ;;
  tx_hash <- getitem result "tx_hash" ;;
  ret (JObj [ ("success", JBool true);
              ("milestone",
               JObj [ ("status", JStr "RELEASED");
                      ("tx_hash", json_of_value tx_hash) ]) ]).

(** [GET /api/milestones] *)
Definition get_milestones : M Json :=
  ms <- list_milestones ;;
  ret (JObj [ ("milestones", JArr (map json_of_dict ms)) ]).

(** The routes of the application. *)
Inductive Request : Type :=
| GET_root
| POST_wallet
| POST_milestone_create (req : CreateMilestoneRequest)
| POST_milestone_approve (req : ApproveMilestoneRequest)
| GET_milestones.

Definition handle (r : Request) : M Json :=
  match r with
  | GET_root => root
  | POST_wallet => new_wallet
  | POST_milestone_create req => create_milestone req
  | POST_milestone_approve req => approve_milestone_endpoint req
  | GET_milestones => get_milestones
  end.

(** Requests served one after the other; a request that raises is
    answered with an error and the next one is served. *)
Definition serve (rs : list Request) (s : Sys) : Sys :=
  fold_left (fun s' r => snd (handle r s')) rs s.

End WithServices.

End Main.

(* ================================================================== *)
(** ** Properties of tables used in the statements below *)

Module Props.
Import Db Storage Calls.

(** No row of [t] has the pair [(o, q)]. *)
Definition fresh (o : string) (q : Z) (t : Table) : Prop :=
  forall r, In r t -> ~ (owner_address r = o /\ offer_sequence r = q).

(** Every row of [t] is, at the same position of [t'], the same
    milestone: no row is deleted, moved or given another identity. *)
Definition persists (t t' : Table) : Prop :=
  forall i r, nth_error t i = Some r ->
    exists r', nth_error t' i = Some r' /\ same_identity r r'.

(** The release columns of a row agree with its status. *)
Definition well_stamped (r : Row) : Prop :=
  match status r with
  | LOCKED => released_tx_hash r = None /\ released_at r = None
  | RELEASED =>
      (exists h, released_tx_hash r = Some h)
      /\ (exists now, released_at r = Some now)
  end.

(** What one operation can do to the table: nothing, the INSERT of a
    LOCKED row for a fresh pair whose sequence fits the 64-bit cell, or
    the UPDATE of [mark_released]. *)
Inductive table_step (t : Table) : Table -> Prop :=
| step_none : table_step t t
| step_insert (tx o : string) (q : Z) (f : string) (now : Z) :
    int64 q = true -> fresh o q t ->
    table_step t (t ++ [mkRow (next_rowid t) tx o q f LOCKED now None None])
| step_update (h : string) (now : Z) (o : string) (q : Z) :
    table_step t (update_released h now o q t).

(** The EscrowCreate that [create_milestone_escrow] builds in state [s]
    for wallet [w], and the state in which it is handed to the ledger:
    [s] with the secret drawn. *)
Definition create_tx (w : Xrpl.Wallet) (dest amt : string) (s : Sys)
    : Xrpl.Transaction :=
  Xrpl.EscrowCreate (Xrpl.classic_address w) dest amt
    (fst (fst (Conditions.generate_condition_pair (rng s)))).

Definition drawn_sys (s : Sys) : Sys :=
  set_rng (snd (Conditions.generate_condition_pair (rng s))) s.

Definition sequence_unavailable : Exn :=
  RuntimeError
    "Could not determine OfferSequence/Sequence for created escrow.".

(** The transaction is a release of the pair [(o, q)]. *)
Definition releases (o : string) (q : Z) (tx : Xrpl.Transaction) : Prop :=
  exists account f, tx = Xrpl.EscrowFinish account o q f.

End Props.

(* ================================================================== *)
(** ** More sample data: ledgers and tables for the edge cases *)

Module Cases.
Import Db.

(** A tape that agrees with [Samples.tape0] on its first 32 bytes. *)
Definition tape1 : nat -> byte :=
  fun n => if (n <? 32)%nat then Samples.tape0 n else x00.

Definition rng1 : Conditions.Rng := Conditions.mkRng tape1 0.

(** A settled response that names no sequence. *)
Definition no_sequence : Xrpl.Response :=
  Xrpl.mkResponse None (Some (Xrpl.mkTxJson None)) (Some "ESCROWTX3").

Definition ledger_no_sequence : Escrows.Client :=
  Escrows.mkClient Samples.wallets (fun _ _ s => (Ok no_sequence, s)).

(** A ledger whose wallets all have the address [rSTRANGER]. *)
Definition ledger_stranger : Escrows.Client :=
  Escrows.mkClient (fun seed => Ok (Xrpl.mkWallet "rSTRANGER" seed))
                   (fun tx _ s => (Ok (Samples.answer tx), s)).

Definition stranger : Xrpl.Wallet := Xrpl.mkWallet "rSTRANGER" "sOTHER".

(** A library that rejects every seed. *)
Definition ledger_bad_seed : Escrows.Client :=
  Escrows.mkClient (fun _ => Raise (XRPLException "invalid seed"))
                   (fun tx _ s => (Ok (Samples.answer tx), s)).

Definition faucet_up : Main.Faucet :=
  Main.mkFaucet (fun s => (Ok (Xrpl.mkWallet "rNEW" "sNEW"), s)).

(** A LOCKED row whose stored fulfillment is the empty text. *)
Definition blank_row : Row :=
  mkRow 1 "ESCROWTX1" "rOWNER1" 5 EmptyString LOCKED 100 None None.

Definition sys_blank : Sys := mkSys [blank_row] 200 Samples.rng0 [].

Definition create_req : Main.CreateMilestoneRequest :=
  Main.mkCreateMilestoneRequest "sEMPLOYER1" "rDEST1" "1000000".

Definition approve_req : Main.ApproveMilestoneRequest :=
  Main.mkApproveMilestoneRequest "sEMPLOYER1" "rOWNER1" 5.

End Cases.

(* ================================================================== *)
(** ** Sanity checks of the codecs on published test vectors *)

Definition hex_digest (bs : list byte) : list Z := map Bytes.to_Z bs.

Example sha256_abc :
  hex_digest (Sha256.sha256 (Bytes.of_string "abc")) =
  [ 0xba; 0x78; 0x16; 0xbf; 0x8f; 0x01; 0xcf; 0xea;
    0x41; 0x41; 0x40; 0xde; 0x5d; 0xae; 0x22; 0x23;
    0xb0; 0x03; 0x61; 0xa3; 0x96; 0x17; 0x7a; 0x9c;
    0xb4; 0x10; 0xff; 0x61; 0xf2; 0x00; 0x15; 0xad ].
Proof. vm_compute. reflexivity. Qed.

Example sha256_empty :
  hex_digest (Sha256.sha256 []) =
  [ 0xe3; 0xb0; 0xc4; 0x42; 0x98; 0xfc; 0x1c; 0x14;
    0x9a; 0xfb; 0xf4; 0xc8; 0x99; 0x6f; 0xb9; 0x24;
    0x27; 0xae; 0x41; 0xe4; 0x64; 0x9b; 0x93; 0x4c;
    0xa4; 0x95; 0x99; 0x1b; 0x78; 0x52; 0xb8; 0x55 ].
Proof. vm_compute. reflexivity. Qed.

Example sha256_constants :
  List.length Sha256.primes = 64%nat
  /\ nth 0 Sha256.K 0 = 0x428a2f98 /\ nth 63 Sha256.K 0 = 0xc67178f2
  /\ Sha256.ra Sha256.H0 = 0x6a09e667 /\ Sha256.rh Sha256.H0 = 0x5be0cd19.
Proof. vm_compute. repeat split. Qed.

(** The scenario of one milestone: create, approve, list.  The approval
    stops where the release transaction is constructed. *)
Example scenario_one_milestone :
  let s1 := snd (Escrows.create_milestone_escrow Samples.ledger_up
                   "sEMPLOYER1" "rDEST1" "1000000" Samples.sys_empty) in
  let run2 := Escrows.approve_milestone Samples.ledger_up "sEMPLOYER1"
                                        "rOWNER1" 5 s1 in
  map Db.status (Db.db s1) = [Db.LOCKED]
  /\ map Db.offer_sequence (Db.db s1) = [5]
  /\ List.length (Db.submitted s1) = 1%nat
  /\ fst run2 = Raise Xrpl.fulfillment_without_condition
  /\ map Db.status (Db.db (snd run2)) = [Db.LOCKED]
  /\ List.length (Db.submitted (snd run2)) = 1%nat
  /\ fst (Storage.list_milestones (snd run2))
     = Ok [[ ("escrow_tx_hash", VText "ESCROWTX1");
             ("owner_address", VText "rOWNER1");
             ("offer_sequence", VInt 5);
             ("status", VText "LOCKED");
             ("created_at", VInt 90);
             ("released_tx_hash", VNull);
             ("released_at", VNull) ]].
Proof. vm_compute. repeat split. Qed.

Example b64_foobar :
  Base64.b64encode (Bytes.of_string "foobar") = "Zm9vYmFy"
  /\ Base64.b64encode (Bytes.of_string "fooba") = "Zm9vYmE="
  /\ Base64.b64encode (Bytes.of_string "foob") = "Zm9vYg=="
  /\ Base64.b64decode "Zm9vYg==" = Some (Bytes.of_string "foob").
Proof. vm_compute. repeat split. Qed.

(* ================================================================== *)
(** ** Bytes and base64: decoding inverts encoding *)

Section Base64_roundtrip.
Import Bytes Base64.

Lemma to_Z_range (b : byte) : 0 <= to_Z b < 256.
Proof.
  unfold to_Z. pose proof (Byte.to_N_bounded b). lia.
Qed.

Lemma of_to_Z (b : byte) : of_Z (to_Z b) = b.
Proof.
  unfold of_Z. rewrite Z.mod_small by apply to_Z_range.
  unfold to_Z. rewrite N2Z.id, Byte.of_to_N. reflexivity.
Qed.

Lemma of_Z_eq (z : Z) (b : byte) : z mod 256 = to_Z b -> of_Z z = b.
Proof.
  intros H. rewrite <- (of_to_Z b), <- H.
  unfold of_Z. rewrite Z.mod_mod by lia. reflexivity.
Qed.

Lemma alphabet_table :
  forallb (fun n =>
    match value_of (char_of (Z.of_nat n)) with
    | Some m => (m =? Z.of_nat n) && negb (Ascii.eqb (char_of (Z.of_nat n)) pad)
    | None => false
    end) (seq 0 64) = true.
Proof. vm_compute. reflexivity. Qed.

Lemma value_of_char_of (n : Z) :
  0 <= n < 64 ->
  value_of (char_of n) = Some n /\ Ascii.eqb (char_of n) pad = false.
Proof.
  intros Hn. pose proof alphabet_table as T.
  rewrite forallb_forall in T.
  specialize (T (Z.to_nat n)).
  rewrite Z2Nat.id in T by lia.
  assert (Hin : In (Z.to_nat n) (seq 0 64)) by (apply in_seq; lia).
  specialize (T Hin).
  destruct (value_of (char_of n)) as [m|]; [|discriminate].
  apply andb_true_iff in T. destruct T as [T1 T2].
  apply Z.eqb_eq in T1. apply negb_true_iff in T2. subst m. auto.
Qed.

Lemma sextet_range (i g : Z) : 0 <= sextet i g < 64.
Proof. unfold sextet. apply Z.mod_pos_bound. lia. Qed.

Lemma group_range (a b c : byte) : 0 <= group a b c < 16777216.
Proof.
  unfold group.
  pose proof (to_Z_range a). pose proof (to_Z_range b).
  pose proof (to_Z_range c). lia.
Qed.

Ltac sextets :=
  unfold sextet, ungroup;
  change (64 ^ (3 - 0)) with 262144; change (64 ^ (3 - 1)) with 4096;
  change (64 ^ (3 - 2)) with 64; change (64 ^ (3 - 3)) with 1.

Lemma ungroup_sextets (g : Z) :
  0 <= g < 16777216 ->
  ungroup (sextet 0 g) (sextet 1 g) (sextet 2 g) (sextet 3 g) = g.
Proof. intros H. sextets. Z.div_mod_to_equations. lia. Qed.

Lemma ungroup_sextets2 (g : Z) :
  0 <= g < 16777216 -> g mod 256 = 0 ->
  ungroup (sextet 0 g) (sextet 1 g) (sextet 2 g) 0 / 256 = g / 256.
Proof. intros H H'. sextets. Z.div_mod_to_equations. lia. Qed.

Lemma ungroup_sextets1 (g : Z) :
  0 <= g < 16777216 -> g mod 65536 = 0 ->
  ungroup (sextet 0 g) (sextet 1 g) 0 0 / 65536 = g / 65536.
Proof. intros H H'. sextets. Z.div_mod_to_equations. lia. Qed.

Lemma group_byte0 (a b c : byte) : of_Z (group a b c / 65536) = a.
Proof.
  apply of_Z_eq. unfold group.
  pose proof (to_Z_range a). pose proof (to_Z_range b).
  pose proof (to_Z_range c). Z.div_mod_to_equations. lia.
Qed.

Lemma group_byte1 (a b c : byte) : of_Z (group a b c / 256) = b.
Proof.
  apply of_Z_eq. unfold group.
  pose proof (to_Z_range a). pose proof (to_Z_range b).
  pose proof (to_Z_range c). Z.div_mod_to_equations. lia.
Qed.

Lemma group_byte2 (a b c : byte) : of_Z (group a b c) = c.
Proof.
  apply of_Z_eq. unfold group.
  pose proof (to_Z_range a). pose proof (to_Z_range b).
  pose proof (to_Z_range c). Z.div_mod_to_equations. lia.
Qed.

Lemma group_low2 (a : byte) : group a x00 x00 mod 65536 = 0.
Proof.
  unfold group. change (to_Z x00) with 0.
  pose proof (to_Z_range a). Z.div_mod_to_equations. lia.
Qed.

Lemma group_low1 (a b : byte) : group a b x00 mod 256 = 0.
Proof.
  unfold group. change (to_Z x00) with 0.
  pose proof (to_Z_range a). pose proof (to_Z_range b).
  Z.div_mod_to_equations. lia.
Qed.

Ltac known_char g i :=
  let V := fresh "V" in
  let P := fresh "P" in
  destruct (value_of_char_of (sextet i g) (sextet_range i g)) as [V P];
  rewrite ?V, ?P.

Lemma b64decode_three (a b c : byte) (rest : string) :
  let g := group a b c in
  b64decode (String (char_of (sextet 0 g)) (String (char_of (sextet 1 g))
    (String (char_of (sextet 2 g)) (String (char_of (sextet 3 g)) rest))))
  = match b64decode rest with
    | Some tl => Some (a :: b :: c :: tl)
    | None => None
    end.
Proof.
  intros g. cbn [b64decode].
  known_char g 0. known_char g 1. known_char g 2. known_char g 3.
  destruct (b64decode rest) as [tl|]; [|reflexivity].
  rewrite (ungroup_sextets g (group_range a b c)).
  unfold g. rewrite group_byte0, group_byte1, group_byte2. reflexivity.
Qed.

Lemma b64decode_two (a b : byte) :
  let g := group a b x00 in
  b64decode (String (char_of (sextet 0 g)) (String (char_of (sextet 1 g))
    (String (char_of (sextet 2 g)) (String pad EmptyString))))
  = Some [a; b].
Proof.
  intros g. cbn [b64decode].
  known_char g 0. known_char g 1. known_char g 2.
  change (Ascii.eqb pad pad) with true. cbv iota.
  assert (R : 0 <= g < 16777216) by apply group_range.
  assert (E : ungroup (sextet 0 g) (sextet 1 g) (sextet 2 g) 0 / 65536
              = g / 65536).
  { pose proof (group_low1 a b) as L. fold g in L. revert R L.
    generalize g. intros z R L. sextets. Z.div_mod_to_equations. lia. }
  rewrite E, (ungroup_sextets2 g R (group_low1 a b)).
  unfold g. rewrite group_byte0, group_byte1. reflexivity.
Qed.

Lemma b64decode_one (a : byte) :
  let g := group a x00 x00 in
  b64decode (String (char_of (sextet 0 g)) (String (char_of (sextet 1 g))
    (String pad (String pad EmptyString))))
  = Some [a].
Proof.
  intros g. cbn [b64decode].
  known_char g 0. known_char g 1.
  change (Ascii.eqb pad pad) with true. cbv iota.
  rewrite (ungroup_sextets1 g (group_range a x00 x00) (group_low2 a)).
  unfold g. rewrite group_byte0. reflexivity.
Qed.

(** Decoding inverts encoding, for every byte string. *)
Lemma b64decode_b64encode (bs : list byte) :
  b64decode (b64encode bs) = Some bs.
Proof.
  remember (List.length bs) as n eqn:Hn.
  revert bs Hn. induction n as [n IH] using (well_founded_induction lt_wf).
  intros bs Hn. destruct bs as [|a [|b [|c rest]]].
  - reflexivity.
  - apply b64decode_one.
  - apply b64decode_two.
  - cbn [b64encode]. rewrite b64decode_three.
    rewrite (IH (List.length rest)) with (bs := rest);
      [reflexivity | subst n; simpl; lia | reflexivity].
Qed.

(** The encoding of [n] bytes has [4 * ceil(n / 3)] characters. *)
Lemma b64encode_length (bs : list byte) :
  String.length (b64encode bs) = (4 * ((List.length bs + 2) / 3))%nat.
Proof.
  remember (List.length bs) as n eqn:Hn.
  revert bs Hn. induction n as [n IH] using (well_founded_induction lt_wf).
  intros bs Hn. destruct bs as [|a [|b [|c rest]]]; subst n;
    try reflexivity.
  cbn [b64encode String.length List.length].
  rewrite (IH (List.length rest)) with (bs := rest);
    [| simpl; lia | reflexivity].
  replace (S (S (S (List.length rest))) + 2)%nat
    with (List.length rest + 2 + 1 * 3)%nat by lia.
  rewrite Nat.div_add by lia. lia.
Qed.

End Base64_roundtrip.

(* ================================================================== *)
(** ** conditions.py: the pair is a preimage and its hash *)

Lemma token_bytes_length (n : nat) (g : Conditions.Rng) :
  List.length (fst (Conditions.token_bytes n g)) = n.
Proof.
  unfold Conditions.token_bytes. simpl.
  rewrite length_map, length_seq. reflexivity.
Qed.

Lemma sha256_length (msg : list byte) :
  List.length (Sha256.sha256 msg) = 32%nat.
Proof. reflexivity. Qed.

(** Successive draws read disjoint stretches of the tape. *)
Lemma token_bytes_advances (n : nat) (g : Conditions.Rng) :
  Conditions.pos (snd (Conditions.token_bytes n g))
  = (Conditions.pos g + n)%nat.
Proof. reflexivity. Qed.

(** C7: for every pair returned by [generate_condition_pair], the secret
    is 32 bytes, the fulfillment is its base64 text, the condition is the
    base64 text of its SHA-256 digest, and hashing the decoded
    fulfillment gives the decoded condition. *)
Theorem generate_condition_pair_preimage (g : Conditions.Rng) :
  let secret := fst (Conditions.token_bytes 32 g) in
  let condition_b64 := fst (fst (Conditions.generate_condition_pair g)) in
  let fulfillment_b64 := snd (fst (Conditions.generate_condition_pair g)) in
  List.length secret = 32%nat
  /\ fulfillment_b64 = Base64.b64encode secret
  /\ condition_b64 = Base64.b64encode (Sha256.sha256 secret)
  /\ Base64.b64decode fulfillment_b64 = Some secret
  /\ Base64.b64decode condition_b64 = Some (Sha256.sha256 secret)
  /\ option_map Sha256.sha256 (Base64.b64decode fulfillment_b64)
     = Base64.b64decode condition_b64.
Proof.
  intros secret condition_b64 fulfillment_b64.
  assert (Ef : fulfillment_b64 = Base64.b64encode secret) by reflexivity.
  assert (Ec : condition_b64 = Base64.b64encode (Sha256.sha256 secret))
    by reflexivity.
  split; [apply token_bytes_length|].
  split; [exact Ef|]. split; [exact Ec|].
  rewrite Ef, Ec, !b64decode_b64encode.
  repeat split.
Qed.

(* ================================================================== *)
(** ** storage.py: what each statement does to the table *)

Section Storage_facts.
Import Db Storage Calls.

Lemma set_db_same (s : Sys) : set_db (db s) s = s.
Proof. destruct s. reflexivity. Qed.

Lemma matches_iff (o : string) (q : Z) (r : Row) :
  matches o q r = true <-> owner_address r = o /\ offer_sequence r = q.
Proof.
  unfold matches. rewrite andb_true_iff, String.eqb_eq, Z.eqb_eq.
  reflexivity.
Qed.

Lemma save_milestone_eq (tx o : string) (q : Z) (f : string) (s : Sys) :
  save_milestone tx o q f s =
  match insert_milestone tx o q f (clock s) (db s) with
  | Ok (a, t') => (Ok a, set_db t' s)
  | Raise e => (Raise e, s)
  end.
Proof. reflexivity. Qed.

Lemma int64_iff (z : Z) : int64 z = true <-> - 2 ^ 63 <= z < 2 ^ 63.
Proof.
  unfold int64. rewrite andb_true_iff, Z.leb_le, Z.ltb_lt. reflexivity.
Qed.

Lemma wrap64_int64 (z : Z) : int64 (wrap64 z) = true.
Proof.
  apply int64_iff. unfold wrap64.
  pose proof (Z.mod_pos_bound (z + 2 ^ 63) (2 ^ 64)). lia.
Qed.

Lemma wrap64_id (z : Z) : int64 z = true -> wrap64 z = z.
Proof.
  intros H. apply int64_iff in H. unfold wrap64.
  rewrite Z.mod_small by lia. lia.
Qed.

(** A pair that some row has fits a cell. *)
Lemma matches_int64 (o : string) (q : Z) (r : Row) :
  matches o q r = true -> int64 q = true.
Proof.
  intros H. apply matches_iff in H. destruct H as [_ <-].
  apply wrap64_int64.
Qed.

Lemma existsb_matches_int64 (o : string) (q : Z) (t : Table) :
  existsb (matches o q) t = true -> int64 q = true.
Proof.
  intros H. apply existsb_exists in H. destruct H as (r & _ & Hm).
  exact (matches_int64 o q r Hm).
Qed.

Lemma update_released_out_of_range (h : string) (now : Z) (o : string)
    (q : Z) (t : Table) :
  int64 q = false -> update_released h now o q t = t.
Proof.
  intros H. unfold update_released. rewrite <- (map_id t) at 2.
  apply map_ext. intros r. destruct (matches o q r) eqn:Hm; [|reflexivity].
  apply matches_int64 in Hm. congruence.
Qed.

Lemma get_fulfillment_eq (o : string) (q : Z) (s : Sys) :
  get_fulfillment o q s =
  (if int64 q
   then Ok (option_map fulfillment_b64 (fetchone (select_locked o q (db s))))
   else Raise overflow, s).
Proof.
  unfold get_fulfillment, db_conn. destruct (int64 q); [|reflexivity].
  rewrite set_db_same.
  destruct (fetchone (select_locked o q (db s))); reflexivity.
Qed.

Lemma get_fulfillment_found (o : string) (q : Z) (s : Sys)
    (x : option string) :
  fst (get_fulfillment o q s) = Ok x ->
  int64 q = true
  /\ option_map fulfillment_b64 (fetchone (select_locked o q (db s))) = x.
Proof.
  rewrite get_fulfillment_eq. cbn [fst].
  destruct (int64 q); [|discriminate].
  intros H. injection H as H. auto.
Qed.

Lemma mark_released_eq (o : string) (q : Z) (h : string) (s : Sys) :
  mark_released o q h s =
  (if int64 q then Ok tt else Raise overflow,
   set_db (update_released h (clock s) o q (db s)) s).
Proof.
  unfold mark_released, bind, time_time, db_conn.
  destruct (int64 q) eqn:E; [reflexivity|].
  rewrite update_released_out_of_range by exact E.
  rewrite set_db_same. reflexivity.
Qed.

Lemma save_milestone_cases (tx o : string) (q : Z) (f : string) (s : Sys) :
  save_milestone tx o q f s =
  if int64 q then
    if existsb (matches o q) (db s) then (Raise unique_violation, s)
    else (Ok tt,
          set_db (db s ++ [mkRow (next_rowid (db s)) tx o q f LOCKED
                                 (clock s) None None]) s)
  else (Raise overflow, s).
Proof.
  rewrite save_milestone_eq. unfold insert_milestone.
  destruct (int64 q); [|reflexivity].
  destruct (existsb (matches o q) (db s)); reflexivity.
Qed.

Lemma list_milestones_eq (s : Sys) :
  list_milestones s =
  (Ok (map summary (order_by_created_at_desc (db s))), s).
Proof. unfold list_milestones, db_conn. rewrite set_db_same. reflexivity. Qed.

Lemma existsb_matches (o : string) (q : Z) (t : Table) :
  existsb (matches o q) t = true <->
  exists r, In r t /\ owner_address r = o /\ offer_sequence r = q.
Proof.
  rewrite existsb_exists. split; intros [r [Hin H]]; exists r;
    (split; [exact Hin|]); apply matches_iff; exact H.
Qed.

(** Under a unique index, rows are determined by their key. *)
Lemma unique_key (t : Table) (r1 r2 : Row) :
  idx_milestone_owner_seq t -> In r1 t -> In r2 t -> key r1 = key r2 ->
  r1 = r2.
Proof.
  unfold idx_milestone_owner_seq. induction t as [|x t IH]; simpl.
  - intros _ [].
  - intros Hnd H1 H2 Hk. inversion Hnd as [|? ? Hnotin Hnd']; subst.
    destruct H1 as [-> | H1], H2 as [-> | H2].
    + reflexivity.
    + exfalso. apply Hnotin. rewrite Hk. apply in_map. exact H2.
    + exfalso. apply Hnotin. rewrite <- Hk. apply in_map. exact H1.
    + apply IH; assumption.
Qed.

Lemma fetchone_select_locked_some (o : string) (q : Z) (t : Table) (r : Row) :
  fetchone (select_locked o q t) = Some r ->
  In r t /\ owner_address r = o /\ offer_sequence r = q /\ status r = LOCKED.
Proof.
  intros H.
  assert (Hin : In r (select_locked o q t)).
  { unfold fetchone in H. destruct (select_locked o q t); simpl in H;
      [discriminate | injection H as ->; left; reflexivity]. }
  unfold select_locked in Hin. apply filter_In in Hin.
  destruct Hin as [Hin Hp]. apply andb_true_iff in Hp.
  destruct Hp as [Hm Hl]. apply matches_iff in Hm.
  destruct Hm as [Ho Hq]. repeat split; try assumption.
  destruct (status r); [reflexivity | discriminate].
Qed.

Lemma fetchone_select_locked_none (o : string) (q : Z) (t : Table) :
  fetchone (select_locked o q t) = None ->
  forall r, In r t -> owner_address r = o -> offer_sequence r = q ->
            status r = RELEASED.
Proof.
  intros H r Hin Ho Hq.
  destruct (status r) eqn:Hs; [exfalso | reflexivity].
  assert (Hsel : In r (select_locked o q t)).
  { unfold select_locked. apply filter_In. split; [exact Hin|].
    rewrite Hs. rewrite (proj2 (matches_iff o q r)) by auto. reflexivity. }
  unfold fetchone in H. destruct (select_locked o q t);
    [destruct Hsel | discriminate].
Qed.

Lemma select_locked_after_update (h : string) (now : Z) (o : string) (q : Z)
    (t : Table) :
  select_locked o q (update_released h now o q t) = [].
Proof.
  unfold select_locked, update_released. induction t as [|r t IH];
    [reflexivity|].
  cbn [map filter]. destruct (matches o q r) eqn:Hm.
  - change (matches o q (release_row h now r)) with (matches o q r).
    rewrite Hm. cbn [release_row status is_locked andb]. exact IH.
  - rewrite Hm. cbn [andb]. exact IH.
Qed.

End Storage_facts.

(* ================================================================== *)
(** ** storage.py: ordering of the listing *)

Section Ordering.
Import Db Storage Calls.

Lemma insert_desc_perm (r : Row) (l : list Row) :
  Permutation (r :: l) (insert_desc r l).
Proof.
  induction l as [|x l IH]; simpl.
  - apply Permutation_refl.
  - destruct (created_at x <=? created_at r).
    + apply Permutation_refl.
    + eapply perm_trans; [apply perm_swap|].
      apply perm_skip. exact IH.
Qed.

Lemma order_by_perm (t : Table) :
  Permutation t (order_by_created_at_desc t).
Proof.
  unfold order_by_created_at_desc. induction t as [|r t IH]; simpl.
  - apply perm_nil.
  - eapply perm_trans; [apply perm_skip; exact IH|].
    apply insert_desc_perm.
Qed.

Lemma insert_desc_Forall (P : Row -> Prop) (r : Row) (l : list Row) :
  P r -> Forall P l -> Forall P (insert_desc r l).
Proof.
  intros Hr Hl.
  eapply Permutation_Forall; [apply insert_desc_perm|].
  constructor; assumption.
Qed.

Lemma insert_desc_sorted (r : Row) (l : list Row) :
  StronglySorted newest_first l ->
  StronglySorted newest_first (insert_desc r l).
Proof.
  induction l as [|x l IH]; simpl; intros Hs.
  - constructor; constructor.
  - inversion Hs as [|? ? Hs' Hall]; subst.
    destruct (created_at x <=? created_at r) eqn:Hc.
    + apply Z.leb_le in Hc. constructor; [exact Hs|].
      constructor; [unfold newest_first; lia|].
      eapply Forall_impl; [|exact Hall].
      unfold newest_first. intros a Ha. lia.
    + apply Z.leb_gt in Hc. constructor; [apply IH; exact Hs'|].
      apply insert_desc_Forall; [unfold newest_first; lia | exact Hall].
Qed.

Lemma order_by_sorted (t : Table) :
  StronglySorted newest_first (order_by_created_at_desc t).
Proof.
  unfold order_by_created_at_desc. induction t as [|r t IH]; simpl.
  - constructor.
  - apply insert_desc_sorted. exact IH.
Qed.

Lemma insert_desc_redact (r : Row) (l : list Row) :
  insert_desc (redact r) (map redact l) = map redact (insert_desc r l).
Proof.
  induction l as [|x l IH]; simpl; [reflexivity|].
  destruct (created_at x <=? created_at r); simpl; [reflexivity|].
  rewrite IH. reflexivity.
Qed.

Lemma order_by_redact (t : Table) :
  order_by_created_at_desc (map redact t)
  = map redact (order_by_created_at_desc t).
Proof.
  unfold order_by_created_at_desc. induction t as [|r t IH]; simpl;
    [reflexivity|].
  rewrite IH. apply insert_desc_redact.
Qed.

Lemma summary_redact (r : Row) : summary (redact r) = summary r.
Proof. reflexivity. Qed.

End Ordering.

(* ================================================================== *)
(** ** storage.py: the claims about the store *)

Section Storage_claims.
Import Db Storage Calls.

(** C9: for every store state, [list_milestones] returns without
    raising and without changing anything; its result has one
    dictionary for every stored row and no other, in descending order of
    [created_at], and the dictionary of a row holds that row's
    [escrow_tx_hash], [owner_address], [offer_sequence], status text,
    [created_at], [released_tx_hash] and [released_at], NULL where the
    row has none; the length of the result is the number of rows. *)
Theorem list_milestones_newest_first (s : Sys) :
  exists rows,
    Permutation (db s) rows
    /\ StronglySorted (fun a b => created_at a >= created_at b) rows
    /\ List.length rows = List.length (db s)
    /\ list_milestones s =
       (Ok (map (fun r =>
                   [ ("escrow_tx_hash", VText (escrow_tx_hash r));
                     ("owner_address", VText (owner_address r));
                     ("offer_sequence", VInt (offer_sequence r));
                     ("status",
                      VText (match status r with
                             | LOCKED => "LOCKED"
                             | RELEASED => "RELEASED"
                             end));
                     ("created_at", VInt (created_at r));
                     ("released_tx_hash",
                      match released_tx_hash r with
                      | Some h => VText h
                      | None => VNull
                      end);
                     ("released_at",
                      match released_at r with
                      | Some t => VInt t
                      | None => VNull
                      end) ]) rows), s).
Proof.
  exists (order_by_created_at_desc (db s)).
  split; [apply order_by_perm|].
  split; [apply order_by_sorted|].
  split; [symmetry; apply Permutation_length, order_by_perm|].
  rewrite list_milestones_eq. reflexivity.
Qed.

(** C6: when the table already holds a row with the pair
    [(owner_address, offer_sequence)], [save_milestone] for that pair
    raises the uniqueness violation and the whole state, table included,
    is as before. *)
Theorem save_milestone_duplicate (tx o : string) (q : Z) (f : string)
    (s : Sys) (r : Row) :
  In r (db s) -> owner_address r = o -> offer_sequence r = q ->
  save_milestone tx o q f s = (Raise unique_violation, s).
Proof.
  intros Hin Ho Hq. rewrite save_milestone_eq. unfold insert_milestone.
  assert (E : existsb (matches o q) (db s) = true)
    by (apply existsb_matches; exists r; auto).
  rewrite (existsb_matches_int64 o q (db s) E), E. reflexivity.
Qed.

Lemma save_milestone_duplicate_witness :
  save_milestone "ESCROWTX9" "rOWNER1" 5 "bmV3" Samples.sys_locked
  = (Raise unique_violation, Samples.sys_locked)
  /\ db Samples.sys_locked = [Samples.locked_row; Samples.other_row].
Proof.
  split; [|reflexivity].
  apply (save_milestone_duplicate "ESCROWTX9" "rOWNER1" 5 "bmV3"
           Samples.sys_locked Samples.locked_row).
  - simpl. left. reflexivity.
  - reflexivity.
  - reflexivity.
Defined.

(** C2: under the unique index, [get_fulfillment] returns a fulfillment
    exactly when a row with that pair exists and is LOCKED, and it is
    that row's fulfillment.  For a pair that fits a 64-bit cell it
    returns None exactly when no such row exists; for a pair that does
    not, the parameter cannot be bound and it raises OverflowError.
    After a [mark_released] that returned for the pair,
    [get_fulfillment] for the same pair returns None, and after any
    [mark_released] for the pair it returns no fulfillment. *)
Theorem get_fulfillment_iff_locked (o : string) (q : Z) (s : Sys) :
  idx_milestone_owner_seq (db s) ->
  (forall f,
      fst (get_fulfillment o q s) = Ok (Some f) <->
      exists r, In r (db s) /\ owner_address r = o /\ offer_sequence r = q
                /\ status r = LOCKED /\ fulfillment_b64 r = f)
  /\ (int64 q = true ->
      (fst (get_fulfillment o q s) = Ok None <->
       ~ exists r, In r (db s) /\ owner_address r = o
                   /\ offer_sequence r = q /\ status r = LOCKED))
  /\ (int64 q = false -> get_fulfillment o q s = (Raise overflow, s))
  /\ (forall h,
      fst (mark_released o q h s) = Ok tt ->
      fst (get_fulfillment o q (snd (mark_released o q h s))) = Ok None)
  /\ (forall h f,
      fst (get_fulfillment o q (snd (mark_released o q h s)))
      <> Ok (Some f)).
Proof.
  intros Hidx.
  split; [|split; [|split; [|split]]].
  - intros f. split.
    + intros H. apply get_fulfillment_found in H. destruct H as [_ H].
      destruct (fetchone (select_locked o q (db s))) as [r|] eqn:E;
        [|discriminate].
      simpl in H. injection H as Hf.
      apply fetchone_select_locked_some in E.
      destruct E as (Hin & Ho & Hq & Hs). exists r. auto 6.
    + intros (r & Hin & Ho & Hq & Hs & Hf).
      rewrite get_fulfillment_eq. cbn [fst].
      assert (Hr : int64 q = true) by (rewrite <- Hq; apply wrap64_int64).
      rewrite Hr.
      destruct (fetchone (select_locked o q (db s))) as [r0|] eqn:E.
      * apply fetchone_select_locked_some in E.
        destruct E as (Hin0 & Ho0 & Hq0 & Hs0).
        assert (r0 = r).
        { apply (unique_key (db s)); try assumption.
          unfold key. congruence. }
        subst r0. simpl. congruence.
      * pose proof (fetchone_select_locked_none o q (db s) E r Hin Ho Hq).
        congruence.
  - intros Hr. rewrite get_fulfillment_eq, Hr. cbn [fst]. split.
    + intros H (r & Hin & Ho & Hq & Hs).
      destruct (fetchone (select_locked o q (db s))) as [r0|] eqn:E;
        [discriminate|].
      pose proof (fetchone_select_locked_none o q (db s) E r Hin Ho Hq).
      congruence.
    + intros Hno.
      destruct (fetchone (select_locked o q (db s))) as [r0|] eqn:E;
        [|reflexivity].
      exfalso. apply Hno. apply fetchone_select_locked_some in E.
      destruct E as (Hin0 & Ho0 & Hq0 & Hs0). exists r0. auto.
  - intros Hr. rewrite get_fulfillment_eq, Hr. reflexivity.
  - intros h. rewrite mark_released_eq, get_fulfillment_eq. cbn [fst snd].
    destruct (int64 q); [|discriminate]. intros _.
    unfold set_db. cbn [db].
    rewrite select_locked_after_update. reflexivity.
  - intros h f. rewrite mark_released_eq, get_fulfillment_eq. cbn [fst snd].
    destruct (int64 q); [|discriminate].
    unfold set_db. cbn [db].
    rewrite select_locked_after_update. discriminate.
Qed.

Lemma get_fulfillment_iff_locked_witness :
  idx_milestone_owner_seq (db Samples.sys_locked)
  /\ (exists r, In r (db Samples.sys_locked) /\ owner_address r = "rOWNER1"
                /\ offer_sequence r = 5 /\ status r = LOCKED
                /\ fulfillment_b64 r = "c2VjcmV0")
  /\ fst (get_fulfillment "rOWNER1" 5
            (snd (mark_released "rOWNER1" 5 "RELTX2" Samples.sys_locked)))
     = Ok None
  /\ get_fulfillment "rOWNER1" (2 ^ 63) Samples.sys_locked
     = (Raise overflow, Samples.sys_locked).
Proof.
  assert (H : idx_milestone_owner_seq (db Samples.sys_locked)).
  { unfold idx_milestone_owner_seq. simpl.
    constructor; [intros [E|[]]; discriminate E|].
    constructor; [intros []|]. constructor. }
  destruct (get_fulfillment_iff_locked "rOWNER1" 5 Samples.sys_locked H)
    as (A & _ & _ & C & _).
  destruct (get_fulfillment_iff_locked "rOWNER1" (2 ^ 63)
              Samples.sys_locked H) as (_ & _ & O & _).
  split; [exact H|]. split; [apply A; reflexivity|].
  split; [apply C; reflexivity | apply O; reflexivity].
Defined.

Lemma same_identity_refl (r : Row) : same_identity r r.
Proof. unfold same_identity. repeat split. Qed.

Lemma same_identity_trans (a b c : Row) :
  same_identity a b -> same_identity b c -> same_identity a c.
Proof. unfold same_identity. intuition congruence. Qed.

Lemma same_identity_release (h : string) (now : Z) (r : Row) :
  same_identity r (release_row h now r).
Proof. unfold same_identity. repeat split. Qed.

Lemma update_released_rows (h : string) (now : Z) (o : string) (q : Z)
    (t : Table) :
  Forall2 (fun r r' =>
             if matches o q r
             then stamped h now r' /\ same_identity r r'
             else r' = r)
          t (update_released h now o q t).
Proof.
  unfold update_released. induction t as [|r t IH]; simpl; constructor;
    [|exact IH].
  destruct (matches o q r).
  - split; [repeat split | apply same_identity_release].
  - reflexivity.
Qed.

(** C10: [mark_released] keeps the table's rows in place; a row the pair
    selects keeps its [rowid], [escrow_tx_hash], [owner_address],
    [offer_sequence], [fulfillment_b64] and [created_at]; every other row
    is unchanged; so are the clock, the entropy source and the ledger
    log. *)
Theorem mark_released_frame (o : string) (q : Z) (h : string) (s : Sys) :
  let s' := snd (mark_released o q h s) in
  Forall2 (fun r r' => if matches o q r then same_identity r r' else r' = r)
          (db s) (db s')
  /\ clock s' = clock s /\ rng s' = rng s /\ submitted s' = submitted s.
Proof.
  rewrite mark_released_eq. cbn [snd]. unfold set_db. cbn [db clock rng submitted].
  split; [|repeat split].
  eapply Forall2_impl; [|apply update_released_rows].
  intros r r'. cbn beta. destruct (matches o q r); [intros [_ H]; exact H | auto].
Qed.

Lemma stays_released_refl (t : Table) : stays_released t t.
Proof.
  intros i r Hi Hs. exists r. auto using same_identity_refl.
Qed.

Lemma stays_released_trans (t1 t2 t3 : Table) :
  stays_released t1 t2 -> stays_released t2 t3 -> stays_released t1 t3.
Proof.
  intros H12 H23 i r Hi Hs.
  destruct (H12 i r Hi Hs) as (r2 & Hi2 & Hs2 & Hid2).
  destruct (H23 i r2 Hi2 Hs2) as (r3 & Hi3 & Hs3 & Hid3).
  exists r3. eauto using same_identity_trans.
Qed.

Lemma stays_released_append (t l : Table) : stays_released t (t ++ l).
Proof.
  intros i r Hi Hs. exists r. split; [|auto using same_identity_refl].
  rewrite nth_error_app1; [exact Hi|].
  apply nth_error_Some. congruence.
Qed.

Lemma stays_released_update (h : string) (now : Z) (o : string) (q : Z)
    (t : Table) :
  stays_released t (update_released h now o q t).
Proof.
  intros i r Hi Hs. unfold update_released.
  rewrite nth_error_map, Hi. simpl.
  destruct (matches o q r).
  - exists (release_row h now r).
    split; [reflexivity|]. split; [reflexivity|].
    apply same_identity_release.
  - exists r. auto using same_identity_refl.
Qed.

Lemma after_stays_released (c : StoreCall) (s : Sys) :
  stays_released (db s) (db (after c s)).
Proof.
  destruct c as [tx o q f | o q | o q h |]; unfold after.
  - rewrite save_milestone_cases.
    destruct (int64 q); [|apply stays_released_refl].
    destruct (existsb (matches o q) (db s)); cbn [snd].
    + apply stays_released_refl.
    + apply stays_released_append.
  - rewrite get_fulfillment_eq. apply stays_released_refl.
  - rewrite mark_released_eq. apply stays_released_update.
  - rewrite list_milestones_eq. apply stays_released_refl.
Qed.

Lemma after_all_stays_released (cs : list StoreCall) (s : Sys) :
  stays_released (db s) (db (after_all cs s)).
Proof.
  unfold after_all. revert s. induction cs as [|c cs IH]; intros s; simpl.
  - apply stays_released_refl.
  - eapply stays_released_trans; [apply after_stays_released | apply IH].
Qed.

(** C1, as the code has it: [mark_released] returns nothing and sets
    every row the pair selects to RELEASED with the given hash and the
    current time, whatever the row's status was, keeping the row's other
    columns and every other row; for an [offer_sequence] that does not
    fit a 64-bit cell it raises OverflowError instead and changes
    nothing; and under any sequence of store calls a RELEASED row stays
    RELEASED and stays the same milestone. *)
Theorem mark_released_unconditional (o : string) (q : Z) (h : string)
    (s : Sys) :
  let s' := snd (mark_released o q h s) in
  fst (mark_released o q h s) = (if int64 q then Ok tt else Raise overflow)
  /\ Forall2 (fun r r' =>
                if matches o q r
                then stamped h (clock s) r' /\ same_identity r r'
                else r' = r)
             (db s) (db s')
  /\ (int64 q = false -> s' = s)
  /\ (forall cs, stays_released (db s) (db (after_all cs s))).
Proof.
  rewrite mark_released_eq. cbn [fst snd]. unfold set_db at 1. cbn [db].
  split; [reflexivity|]. split; [apply update_released_rows|].
  split.
  - intros Hr. rewrite update_released_out_of_range by exact Hr.
    apply set_db_same.
  - intros cs. apply after_all_stays_released.
Qed.

Lemma mark_released_unconditional_witness :
  fst (mark_released "rOWNER1" 5 "RELTX2" Samples.sys_released) = Ok tt
  /\ mark_released "rOWNER1" (2 ^ 63) "RELTX2" Samples.sys_released
     = (Raise overflow, Samples.sys_released).
Proof.
  split.
  - exact (proj1 (mark_released_unconditional "rOWNER1" 5 "RELTX2"
                    Samples.sys_released)).
  - destruct (mark_released_unconditional "rOWNER1" (2 ^ 63) "RELTX2"
                Samples.sys_released) as (R & _ & K & _).
    rewrite (surjective_pairing (mark_released _ _ _ _)), R, (K eq_refl).
    reflexivity.
Defined.

(** C1, as stated, fails: a row that is already RELEASED is stamped
    again, with a new hash and a new time. *)
Lemma mark_released_restamps_released_row :
  nth_error (db Samples.sys_released) 0 = Some Samples.released_row
  /\ status Samples.released_row = RELEASED
  /\ released_tx_hash Samples.released_row = Some "RELTX1"
  /\ released_at Samples.released_row = Some 150
  /\ mark_released "rOWNER1" 5 "RELTX2" Samples.sys_released
     = (Ok tt,
        set_db [ mkRow 1 "ESCROWTX1" "rOWNER1" 5 "c2VjcmV0" RELEASED 100
                       (Some "RELTX2") (Some 200);
                 Samples.other_row ] Samples.sys_released)
  /\ ~ (forall s o q h r,
          In r (db s) -> status r = RELEASED ->
          In r (db (snd (mark_released o q h s)))).
Proof.
  repeat (split; [reflexivity|]).
  intros H.
  specialize (H Samples.sys_released "rOWNER1" 5 "RELTX2"
                Samples.released_row (or_introl eq_refl) eq_refl).
  cbn in H. destruct H as [H | [H | []]]; discriminate H.
Qed.

(** The unique index holds initially and every store call keeps it. *)
Lemma idx_init : idx_milestone_owner_seq (init_db None).
Proof. constructor. Qed.

Lemma update_released_keys (h : string) (now : Z) (o : string) (q : Z)
    (t : Table) :
  map key (update_released h now o q t) = map key t.
Proof.
  unfold update_released. rewrite map_map. apply map_ext.
  intros r. destruct (matches o q r); reflexivity.
Qed.

Lemma idx_after (c : StoreCall) (s : Sys) :
  idx_milestone_owner_seq (db s) -> idx_milestone_owner_seq (db (after c s)).
Proof.
  unfold idx_milestone_owner_seq.
  destruct c as [tx o q f | o q | o q h |]; unfold after; intros H.
  - rewrite save_milestone_cases.
    destruct (int64 q) eqn:Hr; [|exact H].
    destruct (existsb (matches o q) (db s)) eqn:E; cbn [snd]; [exact H|].
    unfold set_db. cbn [db]. rewrite map_app. cbn [map].
    apply NoDup_app; [exact H | constructor; [intros [] | constructor] |].
    intros k Hk [<- | []].
    apply in_map_iff in Hk. destruct Hk as (r & Hkey & Hin).
    assert (existsb (matches o q) (db s) = true); [|congruence].
    apply existsb_matches. exists r. unfold key in Hkey.
    change (offer_sequence (mkRow (next_rowid (db s)) tx o q f LOCKED
                                  (clock s) None None))
      with (wrap64 q) in Hkey.
    rewrite (wrap64_id q Hr) in Hkey.
    injection Hkey as Ho Hq. auto.
  - rewrite get_fulfillment_eq. exact H.
  - rewrite mark_released_eq. cbn [snd]. unfold set_db. cbn [db].
    rewrite update_released_keys. exact H.
  - rewrite list_milestones_eq. exact H.
Qed.

End Storage_claims.

(* ================================================================== *)
(** ** escrows.py: the two operations, path by path *)

Section Escrow_paths.
Import Db Storage Calls Escrows.

Variable client : Client.

Lemma model_errors_finish (a o : string) (q : Z) (x : option string) :
  falsy x = false ->
  Xrpl.model_errors (Xrpl.EscrowFinish a o q (text_of x))
  = Some Xrpl.fulfillment_without_condition.
Proof. destruct x as [[|c f]|]; try discriminate. reflexivity. Qed.

(** [approve_milestone], path by path: every path ends where the
    [EscrowFinish] is constructed, or before. *)
Lemma approve_milestone_eq (seed o : string) (q : Z) (s : Sys) :
  approve_milestone client seed o q s =
  match wallet_of_seed client seed with
  | Raise e => (Raise e, s)
  | Ok w =>
      if int64 q then
        if falsy (option_map fulfillment_b64
                    (fetchone (select_locked o q (db s))))
        then (Raise not_releasable, s)
        else (Raise Xrpl.fulfillment_without_condition, s)
      else (Raise overflow, s)
  end.
Proof.
  unfold approve_milestone, bind, Wallet.
  destruct (wallet_of_seed client seed) as [w|e]; [|reflexivity].
  rewrite get_fulfillment_eq.
  destruct (int64 q); [|reflexivity].
  destruct (falsy _) eqn:Hfalsy; [reflexivity|].
  unfold construct.
  rewrite (model_errors_finish _ _ _ _ Hfalsy). reflexivity.
Qed.

Lemma create_milestone_escrow_eq (seed dest amt : string) (s : Sys) :
  create_milestone_escrow client seed dest amt s =
  match wallet_of_seed client seed with
  | Raise e => (Raise e, s)
  | Ok w =>
      let drawn := Conditions.generate_condition_pair (rng s) in
      let tx := Xrpl.EscrowCreate (Xrpl.classic_address w) dest amt
                                  (fst (fst drawn)) in
      let s0 := set_rng (snd drawn) s in
      match submit client tx w s0 with
      | (Raise e, s1) => (Raise e, logged tx s0 s1)
      | (Ok resp, s1) =>
          match result_sequence resp with
          | None =>
              (Raise (RuntimeError
                 "Could not determine OfferSequence/Sequence for created escrow."),
               logged tx s0 s1)
          | Some q =>
              match Xrpl.hash resp with
              | None => (Raise (KeyError "hash"), logged tx s0 s1)
              | Some h =>
                  match insert_milestone h (Xrpl.classic_address w) q
                                         (snd (fst drawn)) (clock s1) (db s1)
                  with
                  | Raise e => (Raise e, logged tx s0 s1)
                  | Ok (_, t') =>
                      (Ok [ ("escrow_tx_hash", VText h);
                            ("owner_address", VText (Xrpl.classic_address w));
                            ("offer_sequence", VInt q) ],
                       set_db t' (logged tx s0 s1))
                  end
              end
          end
      end
  end.
Proof.
  unfold create_milestone_escrow, bind, Wallet, generate_condition_pair.
  destruct (wallet_of_seed client seed) as [w|e]; [|reflexivity].
  cbv zeta.
  destruct (Conditions.generate_condition_pair (rng s)) as [pair g'].
  cbn [fst snd]. unfold submit_and_wait, construct, submit.
  cbn [Xrpl.model_errors ret].
  destruct (ledger client _ w (set_rng g' s)) as [[resp|e] s1];
    [|reflexivity].
  destruct (result_sequence resp) as [q|]; [|reflexivity].
  unfold result_hash.
  destruct (Xrpl.hash resp) as [h|]; [|reflexivity].
  unfold ret. rewrite save_milestone_eq. cbn [db clock logged].
  destruct (insert_milestone h (Xrpl.classic_address w) q (snd pair)
              (clock s1) (db s1)) as [[u t']|e]; reflexivity.
Qed.

Lemma falsy_found (f : string) : f <> EmptyString -> falsy (Some f) = false.
Proof. destruct f; [congruence | reflexivity]. Qed.

Lemma rowcount_zero_update (h : string) (now : Z) (o : string) (q : Z)
    (t : Table) :
  rowcount_released o q t = 0%nat -> update_released h now o q t = t.
Proof.
  unfold rowcount_released, update_released.
  induction t as [|r t IH]; simpl; [reflexivity|].
  destruct (matches o q r); simpl; [discriminate|].
  intros H. rewrite IH by exact H. reflexivity.
Qed.

End Escrow_paths.

(* ================================================================== *)
(** ** escrows.py: the claims about the two operations *)

Section Escrow_claims.
Import Db Storage Calls Escrows.

(** No path of [approve_milestone] returns: the last one ends where the
    [EscrowFinish] is constructed with a fulfillment and no condition. *)
Lemma approve_never_ok (client : Client) (seed o : string) (q : Z)
    (s0 s : Sys) (d : Dict) :
  approve_milestone client seed o q s0 = (Ok d, s) -> False.
Proof.
  rewrite approve_milestone_eq.
  destruct (wallet_of_seed client seed) as [w|e]; [|discriminate].
  destruct (int64 q); [|discriminate].
  destruct (falsy _); discriminate.
Qed.

(** Every path of [approve_milestone] raises in the state it started
    from. *)
Lemma approve_raises (client : Client) (seed o : string) (q : Z) (s : Sys) :
  exists e, approve_milestone client seed o q s = (Raise e, s).
Proof.
  rewrite approve_milestone_eq.
  destruct (wallet_of_seed client seed) as [w|e]; [|eexists; reflexivity].
  destruct (int64 q); [|eexists; reflexivity].
  destruct (falsy _); eexists; reflexivity.
Qed.

Lemma approve_milestone_snd (client : Client) (seed o : string) (q : Z)
    (s : Sys) :
  snd (approve_milestone client seed o q s) = s.
Proof.
  destruct (approve_raises client seed o q s) as [e E]. rewrite E.
  reflexivity.
Qed.

(** Whatever the credential, a pair without a LOCKED row reaches no
    ledger call and changes nothing. *)
Lemma approve_not_found_no_call (client : Client) (seed o : string) (q : Z)
    (s : Sys) :
  fst (get_fulfillment o q s) = Ok None ->
  snd (approve_milestone client seed o q s) = s.
Proof.
  intros H. destruct (get_fulfillment_found _ _ _ _ H) as [Hr Hfound].
  rewrite approve_milestone_eq.
  destruct (wallet_of_seed client seed) as [w|e]; [|reflexivity].
  rewrite Hr, Hfound. reflexivity.
Qed.

(** C5: with a credential the library accepts, [approve_milestone] for a
    pair for which [get_fulfillment] finds nothing raises the
    not-releasable error and leaves the state, ledger log included, as it
    was: no ledger call is made.  In particular this is what a second
    approval does in the state a successful approval of the same pair
    left, and what an approval does in the state a [mark_released] of
    the pair left. *)
Theorem approve_not_releasable (client : Client) (seed o : string) (q : Z)
    (s : Sys) (w : Xrpl.Wallet) :
  wallet_of_seed client seed = Ok w ->
  (fst (get_fulfillment o q s) = Ok None ->
   approve_milestone client seed o q s = (Raise not_releasable, s)
   /\ submitted (snd (approve_milestone client seed o q s)) = submitted s)
  /\ (forall seed0 s0 d,
        approve_milestone client seed0 o q s0 = (Ok d, s) ->
        approve_milestone client seed o q s = (Raise not_releasable, s)
        /\ submitted (snd (approve_milestone client seed o q s))
           = submitted s)
  /\ (forall h s0,
        mark_released o q h s0 = (Ok tt, s) ->
        approve_milestone client seed o q s = (Raise not_releasable, s)
        /\ submitted (snd (approve_milestone client seed o q s))
           = submitted s).
Proof.
  intros Hw.
  assert (K : fst (get_fulfillment o q s) = Ok None ->
              approve_milestone client seed o q s = (Raise not_releasable, s)
              /\ submitted (snd (approve_milestone client seed o q s))
                 = submitted s).
  { intros H. destruct (get_fulfillment_found _ _ _ _ H) as [Hr Hfound].
    rewrite approve_milestone_eq, Hw, Hr, Hfound. split; reflexivity. }
  split; [exact K|]. split.
  - intros seed0 s0 d Hrun. exfalso.
    exact (approve_never_ok client seed0 o q s0 s d Hrun).
  - intros h s0 Hrun. apply K. rewrite mark_released_eq in Hrun.
    pose proof (f_equal fst Hrun) as Hout.
    pose proof (f_equal snd Hrun) as Hs. cbn [fst snd] in Hout, Hs.
    destruct (int64 q) eqn:Hr; [|discriminate Hout].
    rewrite get_fulfillment_eq, Hr, <- Hs. cbn [fst set_db db].
    rewrite select_locked_after_update. reflexivity.
Qed.

Lemma approve_not_releasable_witness :
  approve_milestone Samples.ledger_up "sEMPLOYER1" "rOWNER1" 5
                    Samples.sys_released
  = (Raise not_releasable, Samples.sys_released)
  /\ approve_milestone Samples.ledger_up "sEMPLOYER1" "rOWNER1" 5
        (snd (mark_released "rOWNER1" 5 "RELTX2" Samples.sys_locked))
     = (Raise not_releasable,
        snd (mark_released "rOWNER1" 5 "RELTX2" Samples.sys_locked)).
Proof.
  split.
  - apply (approve_not_releasable Samples.ledger_up "sEMPLOYER1" "rOWNER1" 5
             Samples.sys_released Samples.wallet1 eq_refl).
    reflexivity.
  - destruct (approve_not_releasable Samples.ledger_up "sEMPLOYER1"
                "rOWNER1" 5
                (snd (mark_released "rOWNER1" 5 "RELTX2" Samples.sys_locked))
                Samples.wallet1 eq_refl) as (_ & _ & R).
    exact (proj1 (R "RELTX2" Samples.sys_locked eq_refl)).
Defined.

(** C4: when the submission step raises, [create_milestone_escrow]
    raises the same exception without a save, and [approve_milestone]
    raises it without a [mark_released]: the table is the one the step
    returned with.  With no other request running, the table is the one
    the operation started from, and the pair's row is still LOCKED with
    the same fulfillment, so the same approval can be made again.  (For
    an approval the step raises where the release transaction is
    constructed.) *)
Theorem ledger_failure_no_mutation (client : Client) (seed : string)
    (w : Xrpl.Wallet) (s : Sys) :
  wallet_of_seed client seed = Ok w ->
  (forall dest amt e s1,
      let drawn := Conditions.generate_condition_pair (rng s) in
      let tx := Xrpl.EscrowCreate (Xrpl.classic_address w) dest amt
                                  (fst (fst drawn)) in
      submit client tx w (set_rng (snd drawn) s) = (Raise e, s1) ->
      let run := create_milestone_escrow client seed dest amt s in
      fst run = Raise e
      /\ db (snd run) = db s1
      /\ (runs_alone client -> db (snd run) = db s))
  /\ (forall o q f e s1,
      fst (get_fulfillment o q s) = Ok (Some f) -> f <> EmptyString ->
      let tx := Xrpl.EscrowFinish (Xrpl.classic_address w) o q f in
      submit client tx w s = (Raise e, s1) ->
      let run := approve_milestone client seed o q s in
      fst run = Raise e
      /\ db (snd run) = db s1
      /\ (runs_alone client ->
          db (snd run) = db s
          /\ fst (get_fulfillment o q (snd run)) = Ok (Some f))).
Proof.
  intros Hw. split.
  - intros dest amt e s1 drawn tx Hsub run. subst run.
    rewrite create_milestone_escrow_eq, Hw. cbv zeta.
    fold drawn. fold tx. rewrite Hsub. cbn [fst snd logged db].
    split; [reflexivity|]. split; [reflexivity|].
    intros Halone. specialize (Halone tx w (set_rng (snd drawn) s)).
    rewrite Hsub in Halone. exact Halone.
  - intros o q f e s1 Hget Hf tx Hsub run. subst run.
    destruct (get_fulfillment_found _ _ _ _ Hget) as [Hr Hfound].
    assert (Hm : Xrpl.model_errors tx
                 = Some Xrpl.fulfillment_without_condition).
    { subst tx. destruct f; [congruence | reflexivity]. }
    unfold submit in Hsub. rewrite Hm in Hsub.
    pose proof (f_equal fst Hsub) as He. pose proof (f_equal snd Hsub) as Hs.
    cbn [fst snd] in He, Hs. injection He as He. subst e s1.
    rewrite approve_milestone_eq, Hw, Hr, Hfound, (falsy_found f Hf).
    cbn [fst snd]. split; [reflexivity|]. split; [reflexivity|].
    intros _. split; [reflexivity | exact Hget].
Qed.

Lemma ledger_down_alone : runs_alone Samples.ledger_down.
Proof.
  intros tx w s. unfold submit.
  destruct (Xrpl.model_errors tx); reflexivity.
Qed.

Lemma ledger_failure_no_mutation_witness :
  (fst (create_milestone_escrow Samples.ledger_down "sEMPLOYER1" "rDEST1"
          "1000000" Samples.sys_empty) = Raise (XRPLException "timeout")
   /\ db (snd (create_milestone_escrow Samples.ledger_down "sEMPLOYER1"
                 "rDEST1" "1000000" Samples.sys_empty)) = [])
  /\ (fst (approve_milestone Samples.ledger_down "sEMPLOYER1" "rOWNER1" 5
             Samples.sys_locked) = Raise Xrpl.fulfillment_without_condition
      /\ fst (get_fulfillment "rOWNER1" 5
                (snd (approve_milestone Samples.ledger_down "sEMPLOYER1"
                        "rOWNER1" 5 Samples.sys_locked)))
         = Ok (Some "c2VjcmV0")).
Proof.
  split.
  - destruct (ledger_failure_no_mutation Samples.ledger_down "sEMPLOYER1"
                Samples.wallet1 Samples.sys_empty eq_refl) as [C _].
    destruct (C "rDEST1" "1000000" (XRPLException "timeout")
                (set_rng (snd (Conditions.generate_condition_pair
                                 (rng Samples.sys_empty)))
                         Samples.sys_empty) eq_refl) as (R & _ & D).
    split; [exact R | exact (D ledger_down_alone)].
  - destruct (ledger_failure_no_mutation Samples.ledger_down "sEMPLOYER1"
                Samples.wallet1 Samples.sys_locked eq_refl) as [_ A].
    assert (N : "c2VjcmV0" <> EmptyString) by discriminate.
    destruct (A "rOWNER1" 5 "c2VjcmV0" Xrpl.fulfillment_without_condition
                Samples.sys_locked eq_refl N eq_refl) as (R & _ & D).
    split; [exact R | exact (proj2 (D ledger_down_alone))].
Defined.

Lemma dict_keys_summary (r : Row) :
  dict_keys (summary r) =
  [ "escrow_tx_hash"; "owner_address"; "offer_sequence"; "status";
    "created_at"; "released_tx_hash"; "released_at" ]
  /\ dict_get "fulfillment_b64" (summary r) = None.
Proof. split; reflexivity. Qed.

(** C8: every transaction [create_milestone_escrow] hands to the ledger
    has the generated condition in its condition field and no fulfillment
    field, and with an accepted credential that is the one EscrowCreate
    built from the address, the destination, the amount and the
    condition; the dictionary it returns has no fulfillment key; every
    dictionary of [list_milestones] has the seven selected keys and no
    fulfillment key, and the listing is the same when every stored
    fulfillment is blanked out. *)
Theorem fulfillment_not_exposed (client : Client)
    (seed dest amt : string) (s : Sys) :
  let condition_b64 :=
    fst (fst (Conditions.generate_condition_pair (rng s))) in
  let run := create_milestone_escrow client seed dest amt s in
  (exists txs,
      submitted (snd run) = submitted s ++ txs
      /\ Forall (fun tx => Xrpl.condition_of tx = Some condition_b64
                           /\ Xrpl.fulfillment_of tx = None) txs)
  /\ (forall w, wallet_of_seed client seed = Ok w ->
        submitted (snd run) =
        submitted s ++ [Xrpl.EscrowCreate (Xrpl.classic_address w) dest amt
                                          condition_b64])
  /\ (forall d, fst run = Ok d ->
        dict_keys d = ["escrow_tx_hash"; "owner_address"; "offer_sequence"])
  /\ (exists ds,
        fst (list_milestones s) = Ok ds
        /\ Forall (fun d =>
                     dict_keys d =
                     [ "escrow_tx_hash"; "owner_address"; "offer_sequence";
                       "status"; "created_at"; "released_tx_hash";
                       "released_at" ]
                     /\ dict_get "fulfillment_b64" d = None) ds)
  /\ fst (list_milestones (set_db (map redact (db s)) s))
     = fst (list_milestones s).
Proof.
  intros condition_b64 run.
  assert (Hrun : run = create_milestone_escrow client seed dest amt s)
    by reflexivity.
  rewrite create_milestone_escrow_eq in Hrun. cbv zeta in Hrun.
  fold condition_b64 in Hrun.
  remember (snd (fst (Conditions.generate_condition_pair (rng s)))) as ful.
  remember (set_rng (snd (Conditions.generate_condition_pair (rng s))) s)
    as s0 eqn:Hs0.
  assert (Hlog : submitted s0 = submitted s) by (subst s0; reflexivity).
  clear Heqful Hs0.
  destruct (wallet_of_seed client seed) as [w|e].
  - set (tx := Xrpl.EscrowCreate (Xrpl.classic_address w) dest amt
                                 condition_b64) in *.
    assert (Hsub : submitted (snd run) = submitted s ++ [tx]
                   /\ forall d, fst run = Ok d ->
                        dict_keys d =
                        ["escrow_tx_hash"; "owner_address"; "offer_sequence"]).
    { destruct (submit client tx w s0) as [[resp|e] s1];
        [|rewrite Hrun; cbn; rewrite Hlog; split; [reflexivity|discriminate]].
      destruct (result_sequence resp) as [q|];
        [|rewrite Hrun; cbn; rewrite Hlog; split; [reflexivity|discriminate]].
      destruct (Xrpl.hash resp) as [h|];
        [|rewrite Hrun; cbn; rewrite Hlog; split; [reflexivity|discriminate]].
      destruct (insert_milestone h (Xrpl.classic_address w) q ful
                  (clock s1) (db s1)) as [[u t']|e];
        rewrite Hrun; cbn; rewrite Hlog;
        (split; [reflexivity|]); [|discriminate].
      intros d Hd. injection Hd as <-. reflexivity. }
    destruct Hsub as [Hsub Hkeys].
    split; [exists [tx]; split; [exact Hsub|]; repeat constructor|].
    split; [intros w' Hw'; injection Hw' as <-; exact Hsub|].
    split; [exact Hkeys|]. clear Hrun Hsub Hkeys.
    split.
    + rewrite list_milestones_eq. eexists. split; [reflexivity|].
      apply Forall_forall. intros d Hd. apply in_map_iff in Hd.
      destruct Hd as (r & <- & _). apply dict_keys_summary.
    + rewrite !list_milestones_eq. cbn [fst set_db db].
      rewrite order_by_redact, map_map. reflexivity.
  - split; [exists []; rewrite Hrun, app_nil_r; split; [reflexivity | constructor]|].
    split; [intros w' Hw'; discriminate Hw'|].
    split; [rewrite Hrun; intros d Hd; discriminate Hd|].
    split.
    + rewrite list_milestones_eq. eexists. split; [reflexivity|].
      apply Forall_forall. intros d Hd. apply in_map_iff in Hd.
      destruct Hd as (r & <- & _). apply dict_keys_summary.
    + rewrite !list_milestones_eq. cbn [fst set_db db].
      rewrite order_by_redact, map_map. reflexivity.
Qed.

Lemma fulfillment_not_exposed_witness :
  submitted (snd (create_milestone_escrow Samples.ledger_up "sEMPLOYER1"
                    "rDEST1" "1000000" Samples.sys_empty))
  = [ Xrpl.EscrowCreate "rOWNER1" "rDEST1" "1000000"
        (fst (fst (Conditions.generate_condition_pair
                     (rng Samples.sys_empty)))) ]
  /\ dict_keys [ ("escrow_tx_hash", VText "ESCROWTX1");
                 ("owner_address", VText "rOWNER1");
                 ("offer_sequence", VInt 5) ]
     = ["escrow_tx_hash"; "owner_address"; "offer_sequence"].
Proof.
  destruct (fulfillment_not_exposed Samples.ledger_up "sEMPLOYER1" "rDEST1"
              "1000000" Samples.sys_empty) as (_ & T & K & _).
  split.
  - exact (T Samples.wallet1 eq_refl).
  - apply K. vm_compute. reflexivity.
Defined.

End Escrow_claims.

(* ================================================================== *)
(** ** conditions.py: shape and injectivity of the generated texts *)

Section Condition_texts.
Import Conditions.

Lemma b64encode_injective (xs ys : list byte) :
  Base64.b64encode xs = Base64.b64encode ys -> xs = ys.
Proof.
  intros H. apply (f_equal Base64.b64decode) in H.
  rewrite !b64decode_b64encode in H. injection H as H. exact H.
Qed.

Lemma nonempty_of_length (t : string) (n : nat) :
  String.length t = S n -> Escrows.falsy (Some t) = false.
Proof. destruct t; [discriminate | reflexivity]. Qed.

(** X1: Both texts of a generated pair have 44 characters, so a generated
    fulfillment is never the empty text that [approve_milestone] takes
    for a missing one. *)
Theorem generated_texts_have_44_characters (g : Rng) :
  String.length (fst (fst (generate_condition_pair g))) = 44%nat
  /\ String.length (snd (fst (generate_condition_pair g))) = 44%nat
  /\ Escrows.falsy (Some (snd (fst (generate_condition_pair g)))) = false.
Proof.
  assert (Lc : String.length (fst (fst (generate_condition_pair g)))
               = 44%nat).
  { change (fst (fst (generate_condition_pair g)))
      with (Base64.b64encode (Sha256.sha256 (fst (token_bytes 32 g)))).
    rewrite b64encode_length, sha256_length. reflexivity. }
  assert (Lf : String.length (snd (fst (generate_condition_pair g)))
               = 44%nat).
  { change (snd (fst (generate_condition_pair g)))
      with (Base64.b64encode (fst (token_bytes 32 g))).
    rewrite b64encode_length, token_bytes_length. reflexivity. }
  split; [exact Lc|]. split; [exact Lf|].
  exact (nonempty_of_length _ 43 Lf).
Qed.

(** X2: Two generated pairs with the same fulfillment come from the same
    secret and have the same condition. *)
Theorem fulfillment_determines_pair (g1 g2 : Rng) :
  snd (fst (generate_condition_pair g1))
  = snd (fst (generate_condition_pair g2)) ->
  fst (token_bytes 32 g1) = fst (token_bytes 32 g2)
  /\ fst (fst (generate_condition_pair g1))
     = fst (fst (generate_condition_pair g2)).
Proof.
  intros H.
  change (Base64.b64encode (fst (token_bytes 32 g1))
          = Base64.b64encode (fst (token_bytes 32 g2))) in H.
  apply b64encode_injective in H. split; [exact H|].
  change (Base64.b64encode (Sha256.sha256 (fst (token_bytes 32 g1)))
          = Base64.b64encode (Sha256.sha256 (fst (token_bytes 32 g2)))).
  rewrite H. reflexivity.
Qed.

Lemma fulfillment_determines_pair_witness :
  fst (fst (generate_condition_pair Samples.rng0))
  = fst (fst (generate_condition_pair Cases.rng1)).
Proof.
  apply (fulfillment_determines_pair Samples.rng0 Cases.rng1).
  vm_compute. reflexivity.
Defined.

End Condition_texts.

(* ================================================================== *)
(** ** storage.py: lookups, fresh keys and what the calls keep *)

Section Storage_more.
Import Db Storage Calls Props.

Lemma fresh_iff (o : string) (q : Z) (t : Table) :
  existsb (matches o q) t = false <-> fresh o q t.
Proof.
  unfold fresh. split.
  - intros H r Hin [Ho Hq].
    assert (existsb (matches o q) t = true); [|congruence].
    apply existsb_matches. exists r. auto.
  - intros H. destruct (existsb (matches o q) t) eqn:E; [|reflexivity].
    apply existsb_matches in E. destruct E as (r & Hin & Ho & Hq).
    exfalso. apply (H r Hin). auto.
Qed.

Lemma select_locked_app (o : string) (q : Z) (t l : Table) :
  select_locked o q (t ++ l) = select_locked o q t ++ select_locked o q l.
Proof. unfold select_locked. apply filter_app. Qed.

Lemma select_locked_fresh (o : string) (q : Z) (t : Table) :
  fresh o q t -> select_locked o q t = [].
Proof.
  unfold fresh, select_locked. induction t as [|r t IH]; intros H;
    [reflexivity|].
  simpl. destruct (matches o q r) eqn:Hm.
  - exfalso. apply (H r (or_introl eq_refl)). apply matches_iff. exact Hm.
  - simpl. apply IH. intros r' Hin. apply H. right. exact Hin.
Qed.

Lemma matches_other (o o' : string) (q q' : Z) (r : Row) :
  (o', q') <> (o, q) -> matches o q r = true -> matches o' q' r = false.
Proof.
  intros Hne Hm. apply matches_iff in Hm. destruct Hm as [Ho Hq].
  destruct (matches o' q' r) eqn:E; [|reflexivity].
  apply matches_iff in E. destruct E as [Ho' Hq'].
  exfalso. apply Hne. congruence.
Qed.

Lemma select_locked_update_other (h : string) (now : Z) (o o' : string)
    (q q' : Z) (t : Table) :
  (o', q') <> (o, q) ->
  select_locked o' q' (update_released h now o q t) = select_locked o' q' t.
Proof.
  intros Hne. unfold select_locked, update_released.
  induction t as [|r t IH]; [reflexivity|].
  simpl. destruct (matches o q r) eqn:Hm.
  - pose proof (matches_other o o' q q' r Hne Hm) as Hr.
    assert (Hr' : matches o' q' (release_row h now r) = false) by exact Hr.
    rewrite Hr, Hr'. simpl. exact IH.
  - destruct (matches o' q' r && is_locked (status r)); rewrite IH;
      reflexivity.
Qed.

Lemma select_locked_nil_iff (o : string) (q : Z) (t : Table) :
  select_locked o q t = [] <->
  (forall r, In r t -> owner_address r = o -> offer_sequence r = q ->
             status r = RELEASED).
Proof.
  split.
  - intros H. apply fetchone_select_locked_none. rewrite H. reflexivity.
  - intros H. unfold select_locked.
    induction t as [|r t IH]; [reflexivity|].
    simpl. destruct (matches o q r) eqn:Hm.
    + apply matches_iff in Hm. destruct Hm as [Ho Hq].
      rewrite (H r (or_introl eq_refl) Ho Hq). simpl.
      apply IH. intros r' Hin. apply H. right. exact Hin.
    + simpl. apply IH. intros r' Hin. apply H. right. exact Hin.
Qed.

Lemma in_update_released (h : string) (now : Z) (o : string) (q : Z)
    (t : Table) (r' : Row) :
  In r' (update_released h now o q t) ->
  exists r, In r t
    /\ r' = (if matches o q r then release_row h now r else r).
Proof.
  unfold update_released. intros H. apply in_map_iff in H.
  destruct H as (r & E & Hin). exists r. auto.
Qed.

Lemma existsb_update_released (h : string) (now : Z) (o o' : string)
    (q q' : Z) (t : Table) :
  existsb (matches o' q') (update_released h now o q t)
  = existsb (matches o' q') t.
Proof.
  unfold update_released. induction t as [|r t IH]; [reflexivity|].
  simpl. rewrite IH. destruct (matches o q r); reflexivity.
Qed.

Lemma matches_new_row (i : Z) (tx o : string) (q : Z) (f : string)
    (st : Status) (now : Z) (h : option string) (at_ : option Z) :
  int64 q = true -> matches o q (mkRow i tx o q f st now h at_) = true.
Proof.
  intros Hr. apply matches_iff. split; [reflexivity|].
  exact (wrap64_id q Hr).
Qed.

(** X3: A pair that fits a 64-bit cell and has no row: [save_milestone]
    returns, and [get_fulfillment] for the pair then returns the saved
    fulfillment, while the answer for every other pair is what it
    was. *)
Theorem save_then_get_fulfillment (tx o : string) (q : Z) (f : string)
    (s : Sys) :
  int64 q = true -> fresh o q (db s) ->
  fst (save_milestone tx o q f s) = Ok tt
  /\ fst (get_fulfillment o q (snd (save_milestone tx o q f s)))
     = Ok (Some f)
  /\ (forall o' q', (o', q') <> (o, q) ->
        fst (get_fulfillment o' q' (snd (save_milestone tx o q f s)))
        = fst (get_fulfillment o' q' s)).
Proof.
  intros Hr Hf. pose proof (proj2 (fresh_iff o q (db s)) Hf) as E.
  rewrite save_milestone_cases, Hr, E.
  cbn [fst snd]. split; [reflexivity|]. split.
  - rewrite get_fulfillment_eq, Hr. cbn [fst set_db db].
    rewrite select_locked_app, (select_locked_fresh o q (db s) Hf).
    unfold select_locked. cbn [filter app].
    rewrite matches_new_row by exact Hr. reflexivity.
  - intros o' q' Hne. rewrite !get_fulfillment_eq. cbn [fst set_db db].
    rewrite select_locked_app. unfold select_locked at 2.
    cbn [filter].
    assert (Hm : matches o' q'
                   (mkRow (next_rowid (db s)) tx o q f LOCKED (clock s)
                          None None) = false).
    { apply (matches_other o o' q q'); [exact Hne|].
      apply matches_new_row. exact Hr. }
    rewrite Hm. cbn [andb]. rewrite app_nil_r. reflexivity.
Qed.

Lemma save_then_get_fulfillment_witness :
  fst (get_fulfillment "rOWNER3" 7
         (snd (save_milestone "ESCROWTX3" "rOWNER3" 7 "bmV3"
                              Samples.sys_locked)))
  = Ok (Some "bmV3").
Proof.
  apply (save_then_get_fulfillment "ESCROWTX3" "rOWNER3" 7 "bmV3"
           Samples.sys_locked eq_refl).
  apply fresh_iff. reflexivity.
Defined.

(** X4: [save_milestone] returns exactly when the sequence fits a 64-bit
    cell and the pair has no row.  When it raises, nothing is written,
    and the exception is the uniqueness violation, for a pair that has a
    row, or OverflowError, for a sequence that does not fit. *)
Theorem save_milestone_outcomes (tx o : string) (q : Z) (f : string)
    (s : Sys) :
  (fst (save_milestone tx o q f s) = Ok tt
   <-> int64 q = true /\ fresh o q (db s))
  /\ (forall e, fst (save_milestone tx o q f s) = Raise e ->
        snd (save_milestone tx o q f s) = s
        /\ ((e = unique_violation /\ ~ fresh o q (db s))
            \/ (e = overflow /\ int64 q = false))).
Proof.
  rewrite save_milestone_cases.
  destruct (int64 q) eqn:Hr.
  - destruct (existsb (matches o q) (db s)) eqn:E; cbn [fst snd].
    + assert (N : ~ fresh o q (db s)).
      { intros Hf. apply fresh_iff in Hf. congruence. }
      split.
      * split; [discriminate | intros [_ Hf]; contradiction].
      * intros e He. injection He as <-. auto.
    + apply fresh_iff in E. split.
      * split; auto.
      * intros e He. discriminate He.
  - cbn [fst snd]. split.
    + split; [discriminate | intros [H _]; discriminate H].
    + intros e He. injection He as <-. auto.
Qed.

Lemma save_milestone_outcomes_witness :
  fst (save_milestone "ESCROWTX3" "rOWNER3" 7 "bmV3" Samples.sys_locked)
  = Ok tt
  /\ snd (save_milestone "ESCROWTX3" "rOWNER3" (2 ^ 63) "bmV3"
                         Samples.sys_locked) = Samples.sys_locked.
Proof.
  split.
  - apply (save_milestone_outcomes "ESCROWTX3" "rOWNER3" 7 "bmV3"
             Samples.sys_locked).
    split; [reflexivity | apply fresh_iff; reflexivity].
  - apply (proj2 (save_milestone_outcomes "ESCROWTX3" "rOWNER3" (2 ^ 63)
                    "bmV3" Samples.sys_locked) overflow).
    reflexivity.
Defined.

(** X5: A pair without a row: [mark_released] leaves the state exactly
    as before; it returns normally when the sequence fits a 64-bit cell
    and raises OverflowError when it does not. *)
Theorem mark_released_unknown_pair (o : string) (q : Z) (h : string)
    (s : Sys) :
  fresh o q (db s) ->
  mark_released o q h s = (if int64 q then Ok tt else Raise overflow, s).
Proof.
  intros Hf. rewrite mark_released_eq. f_equal.
  rewrite rowcount_zero_update; [apply set_db_same|].
  unfold rowcount_released.
  apply fresh_iff in Hf. induction (db s) as [|r t IH]; [reflexivity|].
  simpl in Hf |- *. destruct (matches o q r); [discriminate|].
  apply IH. exact Hf.
Qed.

Lemma mark_released_unknown_pair_witness :
  mark_released "rOWNER3" 7 "RELTX9" Samples.sys_locked
  = (Ok tt, Samples.sys_locked).
Proof.
  apply (mark_released_unknown_pair "rOWNER3" 7 "RELTX9" Samples.sys_locked).
  apply fresh_iff. reflexivity.
Defined.

(** X6: Releasing one pair leaves the answer of [get_fulfillment] for every
    other pair as it was. *)
Theorem mark_released_other_pair (o o' : string) (q q' : Z) (h : string)
    (s : Sys) :
  (o', q') <> (o, q) ->
  fst (get_fulfillment o' q' (snd (mark_released o q h s)))
  = fst (get_fulfillment o' q' s).
Proof.
  intros Hne. rewrite mark_released_eq, !get_fulfillment_eq.
  cbn [fst snd set_db db].
  rewrite (select_locked_update_other h (clock s) o o' q q' (db s) Hne).
  reflexivity.
Qed.

Lemma mark_released_other_pair_witness :
  fst (get_fulfillment "rOWNER2" 9
         (snd (mark_released "rOWNER1" 5 "RELTX2" Samples.sys_locked)))
  = Ok (Some "b3RoZXI=").
Proof.
  assert (N : ("rOWNER2", 9) <> ("rOWNER1", 5)) by discriminate.
  rewrite (mark_released_other_pair "rOWNER1" "rOWNER2" 5 9 "RELTX2"
             Samples.sys_locked N).
  reflexivity.
Defined.

End Storage_more.

(* ================================================================== *)
(** ** Invariants of the table under its three kinds of step *)

Section Table_steps.
Import Db Storage Calls Props.

Lemma persists_refl (t : Table) : persists t t.
Proof. intros i r Hi. exists r. auto using same_identity_refl. Qed.

Lemma persists_trans (t1 t2 t3 : Table) :
  persists t1 t2 -> persists t2 t3 -> persists t1 t3.
Proof.
  intros H12 H23 i r Hi.
  destruct (H12 i r Hi) as (r2 & Hi2 & Hid2).
  destruct (H23 i r2 Hi2) as (r3 & Hi3 & Hid3).
  exists r3. eauto using same_identity_trans.
Qed.

Lemma persists_length (t t' : Table) :
  persists t t' -> (List.length t <= List.length t')%nat.
Proof.
  intros H. destruct t as [|r0 t0] eqn:Et; [simpl; lia|]. rewrite <- Et in *.
  assert (L : (List.length t - 1 < List.length t)%nat)
    by (rewrite Et; simpl; lia).
  destruct (nth_error t (List.length t - 1)) as [r|] eqn:E.
  - destruct (H _ _ E) as (r' & E' & _).
    assert ((List.length t - 1 < List.length t')%nat)
      by (apply nth_error_Some; congruence).
    lia.
  - apply nth_error_None in E. lia.
Qed.

Lemma step_persists (t t' : Table) : table_step t t' -> persists t t'.
Proof.
  intros [| tx o q f now Hr Hf | h now o q]; intros i r Hi.
  - exists r. auto using same_identity_refl.
  - exists r. split; [|apply same_identity_refl].
    rewrite nth_error_app1; [exact Hi|].
    apply nth_error_Some. congruence.
  - unfold update_released. rewrite nth_error_map, Hi. simpl.
    destruct (matches o q r).
    + exists (release_row h now r). split; [reflexivity|].
      apply same_identity_release.
    + exists r. split; [reflexivity | apply same_identity_refl].
Qed.

Lemma step_well_stamped (t t' : Table) :
  table_step t t' -> Forall well_stamped t -> Forall well_stamped t'.
Proof.
  intros [| tx o q f now Hr Hf | h now o q] H.
  - exact H.
  - apply Forall_app. split; [exact H|].
    constructor; [|constructor]. unfold well_stamped. simpl. auto.
  - unfold update_released. apply Forall_map.
    eapply Forall_impl; [|exact H]. intros r Hr.
    destruct (matches o q r); [|exact Hr].
    unfold well_stamped. simpl. split; eexists; reflexivity.
Qed.

Lemma rowid_below_next (t : Table) (r : Row) :
  In r t -> rowid r < next_rowid t.
Proof.
  unfold next_rowid. induction t as [|x t IH]; [intros []|].
  cbn [fold_right In]. intros [-> | Hin]; [lia|]. specialize (IH Hin). lia.
Qed.

Lemma update_released_rowids (h : string) (now : Z) (o : string) (q : Z)
    (t : Table) :
  map rowid (update_released h now o q t) = map rowid t.
Proof.
  unfold update_released. rewrite map_map. apply map_ext.
  intros r. destruct (matches o q r); reflexivity.
Qed.

Lemma NoDup_snoc {A : Type} (l : list A) (a : A) :
  NoDup l -> ~ In a l -> NoDup (l ++ [a]).
Proof.
  intros Hl Ha.
  apply NoDup_app; [exact Hl | constructor; [intros [] | constructor] |].
  intros x Hx [<- | []]. exact (Ha Hx).
Qed.

Lemma step_unique (t t' : Table) :
  table_step t t' ->
  NoDup (map rowid t) /\ idx_milestone_owner_seq t ->
  NoDup (map rowid t') /\ idx_milestone_owner_seq t'.
Proof.
  unfold idx_milestone_owner_seq.
  intros [| tx o q f now Hq Hf | h now o q] [Hid Hkey].
  - auto.
  - rewrite !map_app. cbn [map]. split; apply NoDup_snoc; try assumption.
    + intros Hin. apply in_map_iff in Hin. destruct Hin as (r & Hr & Hin).
      pose proof (rowid_below_next t r Hin). cbn [rowid] in Hr. lia.
    + intros Hin. apply in_map_iff in Hin. destruct Hin as (r & Hr & Hin).
      apply (Hf r Hin). cbv [key] in Hr. cbn [owner_address] in Hr.
      change (offer_sequence (mkRow (next_rowid t) tx o q f LOCKED now
                                    None None))
        with (wrap64 q) in Hr.
      rewrite (wrap64_id q Hq) in Hr.
      injection Hr as Ho Hs. auto.
  - rewrite update_released_rowids, update_released_keys. auto.
Qed.

Lemma after_step (c : StoreCall) (s : Sys) :
  table_step (db s) (db (after c s)).
Proof.
  destruct c as [tx o q f | o q | o q h |]; unfold after.
  - rewrite save_milestone_cases.
    destruct (int64 q) eqn:Hr; [|constructor].
    destruct (existsb (matches o q) (db s)) eqn:E; cbn [snd].
    + constructor.
    + apply step_insert; [exact Hr | apply fresh_iff; exact E].
  - rewrite get_fulfillment_eq. constructor.
  - rewrite mark_released_eq. apply step_update.
  - rewrite list_milestones_eq. constructor.
Qed.

(** X7: Under any sequence of store calls no row is deleted or moved, every
    row keeps its rowid, escrow hash, owner, sequence, fulfillment and
    creation time, and the table never gets shorter. *)
Theorem rows_are_never_deleted (cs : list StoreCall) (s : Sys) :
  persists (db s) (db (after_all cs s))
  /\ (List.length (db s) <= List.length (db (after_all cs s)))%nat.
Proof.
  assert (P : persists (db s) (db (after_all cs s))).
  { unfold after_all. revert s. induction cs as [|c cs IH]; intros s; simpl.
    - apply persists_refl.
    - eapply persists_trans; [apply step_persists, after_step | apply IH]. }
  split; [exact P | apply persists_length; exact P].
Qed.

(** X8: The release columns follow the status in every table reached by
    store calls: a LOCKED row has no release hash and no release time, a
    RELEASED row has both. *)
Theorem release_columns_follow_status (cs : list StoreCall) (s : Sys) :
  Forall well_stamped (db s) ->
  Forall well_stamped (db (after_all cs s)).
Proof.
  unfold after_all. revert s. induction cs as [|c cs IH]; intros s H; simpl.
  - exact H.
  - apply IH. apply (step_well_stamped (db s)); [apply after_step | exact H].
Qed.

Lemma release_columns_follow_status_witness :
  Forall well_stamped
    (db (after_all [ CallSave "ESCROWTX1" "rOWNER1" 5 "c2VjcmV0";
                     CallMark "rOWNER1" 5 "RELTX2";
                     CallSave "ESCROWTX2" "rOWNER2" 9 "b3RoZXI=" ]
                   Samples.sys_empty)).
Proof.
  apply (release_columns_follow_status _ Samples.sys_empty).
  constructor.
Defined.

(** X9: Both uniqueness constraints of the table are kept by every sequence
    of store calls: no two rows share a rowid, and no two rows share
    [(owner_address, offer_sequence)]. *)
Theorem uniqueness_constraints_kept (cs : list StoreCall) (s : Sys) :
  NoDup (map rowid (db s)) -> idx_milestone_owner_seq (db s) ->
  NoDup (map rowid (db (after_all cs s)))
  /\ idx_milestone_owner_seq (db (after_all cs s)).
Proof.
  intros Hid Hkey. assert (H := conj Hid Hkey). clear Hid Hkey.
  unfold after_all. revert s H.
  induction cs as [|c cs IH]; intros s H; simpl.
  - exact H.
  - apply IH. apply (step_unique (db s)); [apply after_step | exact H].
Qed.

Lemma uniqueness_constraints_kept_witness :
  idx_milestone_owner_seq
    (db (after_all [ CallSave "ESCROWTX1" "rOWNER1" 5 "c2VjcmV0";
                     CallSave "ESCROWTX9" "rOWNER1" 5 "bmV3";
                     CallMark "rOWNER1" 5 "RELTX2" ]
                   Samples.sys_empty)).
Proof.
  apply (uniqueness_constraints_kept _ Samples.sys_empty); constructor.
Defined.

End Table_steps.

(* ================================================================== *)
(** ** escrows.py: what a returned or raised operation tells *)

Section Escrow_more.
Import Db Storage Calls Props Escrows.

(** What a returned [create_milestone_escrow] went through. *)
Lemma create_success_inv (client : Client) (seed dest amt : string) (s s1 : Sys) (d : Dict) :
  create_milestone_escrow client seed dest amt s = (Ok d, s1) ->
  exists w resp s' q h,
    let drawn := Conditions.generate_condition_pair (rng s) in
    let tx := Xrpl.EscrowCreate (Xrpl.classic_address w) dest amt
                                (fst (fst drawn)) in
    wallet_of_seed client seed = Ok w
    /\ submit client tx w (set_rng (snd drawn) s) = (Ok resp, s')
    /\ result_sequence resp = Some q
    /\ Xrpl.hash resp = Some h
    /\ fresh (Xrpl.classic_address w) q (db s')
    /\ d = [ ("escrow_tx_hash", VText h);
             ("owner_address", VText (Xrpl.classic_address w));
             ("offer_sequence", VInt q) ]
    /\ db s1 = db s' ++ [mkRow (next_rowid (db s')) h
                               (Xrpl.classic_address w) q (snd (fst drawn))
                               LOCKED (clock s') None None]
    /\ clock s1 = clock s'
    /\ submitted s1 = submitted s ++ [tx]
    /\ int64 q = true.
Proof.
  rewrite create_milestone_escrow_eq.
  remember (Conditions.generate_condition_pair (rng s)) as drawn eqn:Hdrawn.
  clear Hdrawn.
  destruct (wallet_of_seed client seed) as [w|e]; [|discriminate].
  cbv zeta.
  destruct (submit client _ w _) as [[resp|e] s'] eqn:Hsub; [|discriminate].
  destruct (result_sequence resp) as [q|] eqn:Hq; [|discriminate].
  destruct (Xrpl.hash resp) as [h|] eqn:Hh; [|discriminate].
  unfold insert_milestone.
  destruct (int64 q) eqn:Hr; [|discriminate].
  destruct (existsb (matches (Xrpl.classic_address w) q) (db s')) eqn:E;
    [discriminate|].
  intros H.
  pose proof (f_equal fst H) as Hd. pose proof (f_equal snd H) as Hs.
  cbn [fst snd] in Hd, Hs. clear H. injection Hd as Hd.
  exists w, resp, s', q, h.
  split; [reflexivity|]. split; [exact Hsub|]. split; [exact Hq|].
  split; [exact Hh|]. split; [apply fresh_iff; exact E|].
  split; [symmetry; exact Hd|].
  rewrite <- Hs. repeat split. exact Hr.
Qed.



End Escrow_more.

(* ================================================================== *)
(** ** escrows.py: edge cases after the ledger has answered *)

Section Escrow_edges.
Import Db Storage Calls Props Escrows.

Lemma result_sequence_none (resp : Xrpl.Response) :
  result_sequence resp = None <->
  Xrpl.Sequence resp = None
  /\ (forall tj, Xrpl.tx_json resp = Some tj -> Xrpl.tj_Sequence tj = None).
Proof.
  unfold result_sequence.
  destruct (Xrpl.Sequence resp) as [q|]; [split; [discriminate | intros [H _]; discriminate]|].
  destruct (Xrpl.tx_json resp) as [tj|].
  - split.
    + intros H. split; [reflexivity|]. intros tj' E. injection E as <-. exact H.
    + intros [_ H]. apply H. reflexivity.
  - split; [|reflexivity]. intros _. split; [reflexivity | discriminate].
Qed.

(** X11: When the ledger settles the EscrowCreate, [create_milestone_escrow]
    raises the sequence error exactly when the response has no
    [Sequence] and no [Sequence] under [tx_json] (a sequence of 0
    counts as present); the transaction has then gone to the ledger and
    no row is written. *)
Theorem create_without_sequence (client : Client) (seed dest amt : string)
    (s s' : Sys) (w : Xrpl.Wallet) (resp : Xrpl.Response) :
  wallet_of_seed client seed = Ok w ->
  submit client (create_tx w dest amt s) w (drawn_sys s) = (Ok resp, s') ->
  (fst (create_milestone_escrow client seed dest amt s)
   = Raise sequence_unavailable
   <-> Xrpl.Sequence resp = None
       /\ (forall tj, Xrpl.tx_json resp = Some tj ->
                      Xrpl.tj_Sequence tj = None))
  /\ (fst (create_milestone_escrow client seed dest amt s)
      = Raise sequence_unavailable ->
      db (snd (create_milestone_escrow client seed dest amt s)) = db s'
      /\ submitted (snd (create_milestone_escrow client seed dest amt s))
         = submitted s ++ [create_tx w dest amt s]).
Proof.
  unfold create_tx, drawn_sys. intros Hw Hsub.
  rewrite create_milestone_escrow_eq, Hw. cbv zeta.
  remember (Conditions.generate_condition_pair (rng s)) as drawn eqn:Hdrawn.
  clear Hdrawn. rewrite Hsub.
  rewrite <- result_sequence_none.
  destruct (result_sequence resp) as [q|].
  - assert (N : forall out : Result Dict * Sys,
               (exists d, fst out = Ok d) \/ fst out = Raise (KeyError "hash")
               \/ fst out = Raise unique_violation
               \/ fst out = Raise overflow ->
               fst out <> Raise sequence_unavailable).
    { intros out [[d E] | [E | [E | E]]]; rewrite E; discriminate. }
    match goal with
    | |- (fst ?run = _ <-> _) /\ _ =>
        assert (H : fst run <> Raise sequence_unavailable)
    end.
    { apply N. destruct (Xrpl.hash resp) as [h|]; [|right; left; reflexivity].
      unfold insert_milestone.
      destruct (int64 q); [|right; right; right; reflexivity].
      destruct (existsb _ (db s')); [right; right; left; reflexivity|].
      left. eexists. reflexivity. }
    split; [split; [intros E; contradiction | discriminate]|].
    intros E. contradiction.
  - cbn [fst snd logged db submitted set_rng].
    split; [split; reflexivity|]. intros _. split; reflexivity.
Qed.

Lemma create_without_sequence_witness :
  fst (create_milestone_escrow Cases.ledger_no_sequence "sEMPLOYER1"
         "rDEST1" "1000000" Samples.sys_empty) = Raise sequence_unavailable
  /\ db (snd (create_milestone_escrow Cases.ledger_no_sequence "sEMPLOYER1"
                "rDEST1" "1000000" Samples.sys_empty)) = [].
Proof.
  destruct (create_without_sequence Cases.ledger_no_sequence "sEMPLOYER1"
              "rDEST1" "1000000" Samples.sys_empty
              (drawn_sys Samples.sys_empty) Samples.wallet1
              Cases.no_sequence eq_refl eq_refl) as [I K].
  assert (E : fst (create_milestone_escrow Cases.ledger_no_sequence
                     "sEMPLOYER1" "rDEST1" "1000000" Samples.sys_empty)
              = Raise sequence_unavailable).
  { apply I. split; [reflexivity|].
    intros tj Htj. injection Htj as <-. reflexivity. }
  split; [exact E | exact (proj1 (K E))].
Defined.

(** X12: When the ledger settles the EscrowCreate with a sequence that the
    owner already has a row for, [create_milestone_escrow] raises the
    uniqueness violation: the transaction has gone to the ledger and the
    table is left as the ledger call returned it. *)
Theorem create_sequence_collision (client : Client)
    (seed dest amt : string) (s s' : Sys) (w : Xrpl.Wallet)
    (resp : Xrpl.Response) (q : Z) (h : string) (r : Row) :
  wallet_of_seed client seed = Ok w ->
  submit client (create_tx w dest amt s) w (drawn_sys s) = (Ok resp, s') ->
  result_sequence resp = Some q ->
  Xrpl.hash resp = Some h ->
  In r (db s') -> owner_address r = Xrpl.classic_address w ->
  offer_sequence r = q ->
  fst (create_milestone_escrow client seed dest amt s)
  = Raise unique_violation
  /\ db (snd (create_milestone_escrow client seed dest amt s)) = db s'
  /\ submitted (snd (create_milestone_escrow client seed dest amt s))
     = submitted s ++ [create_tx w dest amt s].
Proof.
  unfold create_tx, drawn_sys. intros Hw Hsub Hq Hh Hin Ho Hs.
  rewrite create_milestone_escrow_eq, Hw. cbv zeta.
  remember (Conditions.generate_condition_pair (rng s)) as drawn eqn:Hdrawn.
  clear Hdrawn. rewrite Hsub, Hq, Hh. unfold insert_milestone.
  assert (Hr : int64 q = true) by (rewrite <- Hs; apply wrap64_int64).
  rewrite Hr.
  rewrite (proj2 (existsb_matches (Xrpl.classic_address w) q (db s')))
    by (exists r; auto).
  cbn [fst snd logged db submitted set_rng]. repeat split.
Qed.

Lemma create_sequence_collision_witness :
  fst (create_milestone_escrow Samples.ledger_up "sEMPLOYER1" "rDEST1"
         "1000000" Samples.sys_locked) = Raise unique_violation
  /\ db (snd (create_milestone_escrow Samples.ledger_up "sEMPLOYER1"
                "rDEST1" "1000000" Samples.sys_locked))
     = db Samples.sys_locked.
Proof.
  destruct (create_sequence_collision Samples.ledger_up "sEMPLOYER1"
              "rDEST1" "1000000" Samples.sys_locked
              (drawn_sys Samples.sys_locked) Samples.wallet1 Samples.created
              5 "ESCROWTX1" Samples.locked_row eq_refl eq_refl eq_refl
              eq_refl (or_introl eq_refl) eq_refl eq_refl) as (E & D & _).
  split; [exact E | exact D].
Defined.

(** X14: A LOCKED row whose stored fulfillment is the empty text is treated
    as not found: [approve_milestone] raises the not-releasable error
    and makes no ledger call. *)
Theorem approve_empty_fulfillment (client : Client) (seed o : string)
    (q : Z) (s : Sys) (w : Xrpl.Wallet) :
  wallet_of_seed client seed = Ok w ->
  fst (get_fulfillment o q s) = Ok (Some EmptyString) ->
  approve_milestone client seed o q s = (Raise not_releasable, s).
Proof.
  intros Hw Hget.
  destruct (get_fulfillment_found _ _ _ _ Hget) as [Hr Hfound].
  rewrite approve_milestone_eq, Hw, Hr, Hfound. reflexivity.
Qed.

Lemma approve_empty_fulfillment_witness :
  approve_milestone Samples.ledger_up "sEMPLOYER1" "rOWNER1" 5
                    Cases.sys_blank
  = (Raise not_releasable, Cases.sys_blank).
Proof.
  apply (approve_empty_fulfillment Samples.ledger_up "sEMPLOYER1" "rOWNER1"
           5 Cases.sys_blank Samples.wallet1 eq_refl eq_refl).
Defined.

End Escrow_edges.

(* ================================================================== *)
(** ** escrows.py: where an approval stops, and what a create stores *)

Section Escrow_release.
Import Db Storage Calls Props Escrows.

(** X15: No call of [approve_milestone] returns, and none changes the
    state: whatever the credential, the pair and the table, the call
    raises, with the table, the clock, the entropy source and the ledger
    log as they were.  No EscrowFinish is ever handed to the ledger and
    [mark_released] is never reached. *)
Theorem approve_milestone_always_raises (client : Client) (seed o : string)
    (q : Z) (s : Sys) :
  (exists e, approve_milestone client seed o q s = (Raise e, s))
  /\ (forall d s1, approve_milestone client seed o q s <> (Ok d, s1))
  /\ submitted (snd (approve_milestone client seed o q s)) = submitted s
  /\ db (snd (approve_milestone client seed o q s)) = db s.
Proof.
  destruct (approve_raises client seed o q s) as [e E].
  split; [exists e; exact E|]. rewrite E.
  split; [intros d s1; discriminate|]. split; reflexivity.
Qed.

Lemma approve_milestone_always_raises_witness :
  exists e,
    approve_milestone Samples.ledger_up "sEMPLOYER1" "rOWNER1" 5
                      Samples.sys_locked
    = (Raise e, Samples.sys_locked).
Proof.
  exact (proj1 (approve_milestone_always_raises Samples.ledger_up
                  "sEMPLOYER1" "rOWNER1" 5 Samples.sys_locked)).
Defined.

(** X16: [approve_milestone] does not compare the credential with the owner,
    and no credential gets a stored fulfillment to the ledger: for
    whatever wallet the seed decodes to, approving a pair whose LOCKED
    row has a non-empty fulfillment raises where the EscrowFinish is
    constructed, a fulfillment without a condition, and the state is as
    it was, the row still LOCKED. *)
Theorem approve_stops_at_construction (client : Client)
    (seed o : string) (q : Z) (s : Sys) (w : Xrpl.Wallet) (f : string) :
  wallet_of_seed client seed = Ok w ->
  fst (get_fulfillment o q s) = Ok (Some f) -> f <> EmptyString ->
  Xrpl.model_errors (Xrpl.EscrowFinish (Xrpl.classic_address w) o q f)
  = Some Xrpl.fulfillment_without_condition
  /\ approve_milestone client seed o q s
     = (Raise Xrpl.fulfillment_without_condition, s)
  /\ fst (get_fulfillment o q (snd (approve_milestone client seed o q s)))
     = Ok (Some f).
Proof.
  intros Hw Hget Hf.
  destruct (get_fulfillment_found _ _ _ _ Hget) as [Hr Hfound].
  assert (E : approve_milestone client seed o q s
              = (Raise Xrpl.fulfillment_without_condition, s)).
  { rewrite approve_milestone_eq, Hw, Hr, Hfound, (falsy_found f Hf).
    reflexivity. }
  split; [destruct f; [congruence | reflexivity]|].
  split; [exact E|]. rewrite E. exact Hget.
Qed.

Lemma approve_stops_at_construction_witness :
  Xrpl.classic_address Cases.stranger <> "rOWNER1"
  /\ approve_milestone Cases.ledger_stranger "sOTHER" "rOWNER1" 5
                       Samples.sys_locked
     = (Raise Xrpl.fulfillment_without_condition, Samples.sys_locked).
Proof.
  split; [discriminate|].
  assert (N : "c2VjcmV0" <> EmptyString) by discriminate.
  apply (approve_stops_at_construction Cases.ledger_stranger "sOTHER"
           "rOWNER1" 5 Samples.sys_locked Cases.stranger "c2VjcmV0"
           eq_refl eq_refl N).
Defined.

(** X17: In the state a returned [create_milestone_escrow] leaves, the
    fulfillment that [get_fulfillment] gives for the returned owner and
    sequence decodes to a 32-byte secret, and the SHA-256 digest of that
    secret is what the condition of the submitted EscrowCreate decodes
    to: the stored text opens the escrow that was created. *)
Theorem stored_fulfillment_opens_condition (client : Client)
    (seed dest amt : string) (s s1 : Sys) (d : Dict) :
  create_milestone_escrow client seed dest amt s = (Ok d, s1) ->
  exists o q c f secret,
    dict_get "owner_address" d = Some (VText o)
    /\ dict_get "offer_sequence" d = Some (VInt q)
    /\ submitted s1 = submitted s ++ [Xrpl.EscrowCreate o dest amt c]
    /\ fst (get_fulfillment o q s1) = Ok (Some f)
    /\ List.length secret = 32%nat
    /\ Base64.b64decode f = Some secret
    /\ Base64.b64decode c = Some (Sha256.sha256 secret).
Proof.
  intros Hc. apply create_success_inv in Hc.
  destruct Hc as (w & resp & s' & q & h & Hc). cbv zeta in Hc.
  destruct Hc as (_ & _ & _ & _ & Hfresh & Hd & Hdb & _ & Hlog & Hr).
  assert (Ef : snd (fst (Conditions.generate_condition_pair (rng s)))
               = Base64.b64encode (fst (Conditions.token_bytes 32 (rng s))))
    by reflexivity.
  assert (Ec : fst (fst (Conditions.generate_condition_pair (rng s)))
               = Base64.b64encode
                   (Sha256.sha256 (fst (Conditions.token_bytes 32 (rng s)))))
    by reflexivity.
  remember (snd (fst (Conditions.generate_condition_pair (rng s)))) as f
    eqn:Hf.
  remember (fst (fst (Conditions.generate_condition_pair (rng s)))) as c
    eqn:Hcond.
  clear Hf Hcond.
  exists (Xrpl.classic_address w), q, c, f,
         (fst (Conditions.token_bytes 32 (rng s))).
  split; [rewrite Hd; reflexivity|]. split; [rewrite Hd; reflexivity|].
  split; [exact Hlog|].
  split.
  - rewrite get_fulfillment_eq, Hr. cbn [fst].
    rewrite Hdb, select_locked_app, (select_locked_fresh _ _ _ Hfresh).
    unfold select_locked. cbn [filter app].
    rewrite matches_new_row by exact Hr. reflexivity.
  - split; [apply token_bytes_length|].
    rewrite Ef, Ec, !b64decode_b64encode. split; reflexivity.
Qed.

Lemma stored_fulfillment_opens_condition_witness :
  exists o q c f secret,
    fst (get_fulfillment o q
           (snd (create_milestone_escrow Samples.ledger_up "sEMPLOYER1"
                   "rDEST1" "1000000" Samples.sys_empty)))
    = Ok (Some f)
    /\ submitted (snd (create_milestone_escrow Samples.ledger_up
                         "sEMPLOYER1" "rDEST1" "1000000" Samples.sys_empty))
       = [Xrpl.EscrowCreate o "rDEST1" "1000000" c]
    /\ Base64.b64decode f = Some secret
    /\ Base64.b64decode c = Some (Sha256.sha256 secret).
Proof.
  remember (create_milestone_escrow Samples.ledger_up "sEMPLOYER1" "rDEST1"
              "1000000" Samples.sys_empty) as run eqn:E.
  assert (F : fst run = Ok [ ("escrow_tx_hash", VText "ESCROWTX1");
                             ("owner_address", VText "rOWNER1");
                             ("offer_sequence", VInt 5) ])
    by (subst run; vm_compute; reflexivity).
  destruct run as [out s1]. cbn [fst] in F. subst out. symmetry in E.
  destruct (stored_fulfillment_opens_condition Samples.ledger_up
              "sEMPLOYER1" "rDEST1" "1000000" Samples.sys_empty s1 _ E)
    as (o & q & c & f & secret & _ & _ & L & G & _ & Df & Dc).
  exists o, q, c, f, secret. cbn [snd].
  split; [exact G|]. split; [exact L|]. split; [exact Df | exact Dc].
Defined.

End Escrow_release.

(* ================================================================== *)
(** ** main.py: the handlers over the two operations *)

Section Handlers.
Import Db Storage Calls Props Escrows Main.

Lemma bind_snd {A B : Type} (m : M A) (k : A -> M B) (s : Sys) :
  (forall a s', snd (k a s') = s') -> snd (bind m k s) = snd (m s).
Proof.
  intros Hk. unfold bind. destruct (m s) as [[a|e] s']; [apply Hk|].
  reflexivity.
Qed.

Lemma ret_snd {A : Type} (a : A) (s : Sys) : snd (ret a s) = s.
Proof. reflexivity. Qed.

Lemma getitem_snd (d : Dict) (k : string) (s : Sys) :
  snd (getitem d k s) = s.
Proof. unfold getitem. destruct (dict_get k d); reflexivity. Qed.

Lemma create_milestone_snd (client : Client) (req : CreateMilestoneRequest)
    (s : Sys) :
  snd (create_milestone client req s)
  = snd (create_milestone_escrow client (cr_employer_seed req)
           (cr_freelancer_address req) (cr_amount_drops req) s).
Proof.
  unfold create_milestone. apply bind_snd. intros d s'.
  rewrite bind_snd; [apply getitem_snd|]. intros v1 s1.
  rewrite bind_snd; [apply getitem_snd|]. intros v2 s2.
  rewrite bind_snd; [apply getitem_snd|]. intros v3 s3. reflexivity.
Qed.

Lemma approve_milestone_endpoint_snd (client : Client)
    (req : ApproveMilestoneRequest) (s : Sys) :
  snd (approve_milestone_endpoint client req s)
  = snd (approve_milestone client (ar_employer_seed req)
           (ar_owner_address req) (ar_offer_sequence req) s).
Proof.
  unfold approve_milestone_endpoint. apply bind_snd. intros d s'.
  rewrite bind_snd; [apply getitem_snd|]. intros v1 s1. reflexivity.
Qed.

Lemma get_milestones_snd (s : Sys) : snd (get_milestones s) = s.
Proof.
  unfold get_milestones. rewrite bind_snd; [|intros; reflexivity].
  rewrite list_milestones_eq. reflexivity.
Qed.

Lemma new_wallet_snd (faucet : Faucet) (s : Sys) :
  snd (new_wallet faucet s) = snd (create_wallet faucet s).
Proof.
  unfold new_wallet. apply bind_snd. intros d s'.
  rewrite bind_snd; [apply getitem_snd|]. intros v1 s1.
  rewrite bind_snd; [apply getitem_snd|]. intros v2 s2. reflexivity.
Qed.

Lemma create_wallet_effect (faucet : Faucet) (s : Sys) :
  db (snd (create_wallet faucet s))
  = db (snd (generate_faucet_wallet faucet s))
  /\ submitted (snd (create_wallet faucet s)) = submitted s.
Proof.
  unfold create_wallet.
  destruct (generate_faucet_wallet faucet s) as [[w|e] s']; split;
    reflexivity.
Qed.


(** The ledger log after each operation. *)
Lemma create_log (client : Client) (seed dest amt : string) (s : Sys) :
  exists txs,
    submitted (snd (create_milestone_escrow client seed dest amt s))
    = submitted s ++ txs
    /\ (List.length txs <= 1)%nat
    /\ Forall (fun tx => Xrpl.fulfillment_of tx = None) txs.
Proof.
  rewrite create_milestone_escrow_eq.
  remember (Conditions.generate_condition_pair (rng s)) as drawn eqn:Hdrawn.
  clear Hdrawn.
  destruct (wallet_of_seed client seed) as [w|e];
    [|exists []; rewrite app_nil_r; auto].
  cbv zeta.
  match goal with
  | |- context [submit client ?tx w ?s0] =>
      exists [tx]; destruct (submit client tx w s0) as [[resp|e] s']
  end.
  - destruct (result_sequence resp) as [q|];
      [|cbn; repeat split; auto].
    destruct (Xrpl.hash resp) as [h|]; [|cbn; repeat split; auto].
    destruct (insert_milestone _ _ _ _ _ _) as [[u t']|e];
      cbn; repeat split; auto.
  - cbn. repeat split; auto.
Qed.

Lemma approve_log (client : Client) (seed o : string) (q : Z) (s : Sys) :
  submitted (snd (approve_milestone client seed o q s)) = submitted s ++ [].
Proof. rewrite approve_milestone_snd, app_nil_r. reflexivity. Qed.

(** X19: Every request makes at most one ledger call and only appends to the
    log: a create request submits nothing that has a fulfillment field,
    an approve request submits only a release of the pair it names, and
    the other routes submit nothing. *)
Theorem each_request_makes_at_most_one_ledger_call (client : Client)
    (faucet : Faucet) (r : Request) (s : Sys) :
  exists txs,
    submitted (snd (handle client faucet r s)) = submitted s ++ txs
    /\ (List.length txs <= 1)%nat
    /\ match r with
       | POST_milestone_create _ =>
           Forall (fun tx => Xrpl.fulfillment_of tx = None) txs
       | POST_milestone_approve req =>
           Forall (releases (ar_owner_address req) (ar_offer_sequence req))
                  txs
       | _ => txs = []
       end.
Proof.
  destruct r as [| | creq | areq |]; unfold handle.
  - exists []. rewrite app_nil_r. auto.
  - exists []. rewrite app_nil_r, new_wallet_snd.
    split; [apply create_wallet_effect | auto].
  - rewrite create_milestone_snd. apply create_log.
  - rewrite approve_milestone_endpoint_snd. exists [].
    split; [apply approve_log | auto].
  - exists []. rewrite app_nil_r, get_milestones_snd. auto.
Qed.

End Handlers.

(* ================================================================== *)
(** ** main.py: requests served one after the other *)

Section Serving.
Import Db Storage Calls Props Escrows Main.

(** With nothing else writing, a create either leaves the table or
    appends one LOCKED row for a fresh pair. *)
Lemma create_grows (client : Client) (seed dest amt : string) (s : Sys) :
  runs_alone client ->
  db (snd (create_milestone_escrow client seed dest amt s)) = db s
  \/ exists h o q f now,
       int64 q = true /\ fresh o q (db s)
       /\ db (snd (create_milestone_escrow client seed dest amt s))
          = db s ++ [mkRow (next_rowid (db s)) h o q f LOCKED now None None].
Proof.
  intros Halone. rewrite create_milestone_escrow_eq.
  remember (Conditions.generate_condition_pair (rng s)) as drawn eqn:Hdrawn.
  clear Hdrawn.
  destruct (wallet_of_seed client seed) as [w|e]; [|left; reflexivity].
  cbv zeta.
  match goal with
  | |- context [submit client ?tx w ?s0] =>
      pose proof (Halone tx w s0) as Hdb;
      destruct (submit client tx w s0) as [[resp|e] s']
  end; cbn [snd set_rng db] in Hdb.
  - destruct (result_sequence resp) as [q|];
      [|left; cbn [snd logged db]; exact Hdb].
    destruct (Xrpl.hash resp) as [h|];
      [|left; cbn [snd logged db]; exact Hdb].
    unfold insert_milestone.
    destruct (int64 q) eqn:Hr; [|left; cbn [snd logged db]; exact Hdb].
    destruct (existsb _ (db s')) eqn:E;
      [left; cbn [snd logged db]; exact Hdb|].
    right. exists h, (Xrpl.classic_address w), q, (snd (fst drawn)), (clock s').
    cbn [snd logged set_db db]. rewrite Hdb in *.
    split; [exact Hr|]. split; [apply fresh_iff; exact E | reflexivity].
  - left. cbn [snd logged db]. exact Hdb.
Qed.

Lemma create_step (client : Client) (seed dest amt : string) (s : Sys) :
  runs_alone client ->
  table_step (db s) (db (snd (create_milestone_escrow client seed dest amt s))).
Proof.
  intros Halone.
  destruct (create_grows client seed dest amt s Halone)
    as [E | (h & o & q & f & now & Hr & Hf & E)]; rewrite E.
  - constructor.
  - apply step_insert; assumption.
Qed.

Lemma approve_step (client : Client) (seed o : string) (q : Z) (s : Sys) :
  table_step (db s) (db (snd (approve_milestone client seed o q s))).
Proof. rewrite approve_milestone_snd. constructor. Qed.

Lemma handle_step (client : Client) (faucet : Faucet) (r : Request)
    (s : Sys) :
  runs_alone client -> faucet_alone faucet ->
  table_step (db s) (db (snd (handle client faucet r s))).
Proof.
  intros Hc Hf. destruct r as [| | creq | areq |]; unfold handle.
  - constructor.
  - rewrite new_wallet_snd, (proj1 (create_wallet_effect faucet s)), Hf.
    constructor.
  - rewrite create_milestone_snd. apply create_step. exact Hc.
  - rewrite approve_milestone_endpoint_snd. apply approve_step.
  - rewrite get_milestones_snd. constructor.
Qed.

(** With nothing else writing, a request only appends LOCKED rows. *)
Lemma handle_grows (client : Client) (faucet : Faucet) (r : Request)
    (s : Sys) :
  runs_alone client -> faucet_alone faucet ->
  exists rows,
    db (snd (handle client faucet r s)) = db s ++ rows
    /\ Forall (fun x => status x = LOCKED) rows.
Proof.
  intros Hc Hf. destruct r as [| | creq | areq |]; unfold handle.
  - exists []. rewrite app_nil_r. auto.
  - exists []. rewrite app_nil_r, new_wallet_snd,
      (proj1 (create_wallet_effect faucet s)), Hf. auto.
  - rewrite create_milestone_snd.
    destruct (create_grows client (cr_employer_seed creq)
                (cr_freelancer_address creq) (cr_amount_drops creq) s Hc)
      as [E | (h & o & q & f & now & _ & _ & E)]; rewrite E.
    + exists []. rewrite app_nil_r. auto.
    + eexists. split; [reflexivity|]. constructor; [reflexivity|constructor].
  - exists []. rewrite app_nil_r, approve_milestone_endpoint_snd,
      approve_milestone_snd. auto.
  - exists []. rewrite app_nil_r, get_milestones_snd. auto.
Qed.

(** A request hands the ledger nothing that has a fulfillment field. *)
Lemma handle_log (client : Client) (faucet : Faucet) (r : Request)
    (s : Sys) :
  exists txs,
    submitted (snd (handle client faucet r s)) = submitted s ++ txs
    /\ Forall (fun tx => Xrpl.fulfillment_of tx = None) txs.
Proof.
  destruct r as [| | creq | areq |]; unfold handle.
  - exists []. rewrite app_nil_r. auto.
  - exists []. rewrite app_nil_r, new_wallet_snd.
    split; [apply create_wallet_effect | constructor].
  - rewrite create_milestone_snd.
    destruct (create_log client (cr_employer_seed creq)
                (cr_freelancer_address creq) (cr_amount_drops creq) s)
      as (txs & L & _ & F).
    exists txs. auto.
  - exists []. rewrite approve_milestone_endpoint_snd.
    split; [apply approve_log | constructor].
  - exists []. rewrite app_nil_r, get_milestones_snd. auto.
Qed.

(** Rows appended after the first LOCKED row of a pair do not change
    what [get_fulfillment] gives for it. *)
Lemma get_fulfillment_grown (o : string) (q : Z) (f : string) (s s' : Sys)
    (rows : list Row) :
  db s' = db s ++ rows ->
  fst (get_fulfillment o q s) = Ok (Some f) ->
  fst (get_fulfillment o q s') = Ok (Some f).
Proof.
  intros Hdb Hget.
  destruct (get_fulfillment_found _ _ _ _ Hget) as [Hr Hfound].
  rewrite get_fulfillment_eq, Hr, Hdb, select_locked_app. cbn [fst].
  destruct (select_locked o q (db s)) as [|r t]; [discriminate Hfound|].
  exact (f_equal Ok Hfound).
Qed.

(** X20: Requests are served one at a time and nothing else writes the
    database.  Then no sequence of requests releases anything: no
    transaction handed to the ledger carries a fulfillment, the table
    only grows by LOCKED rows at its end, and a fulfillment that
    [get_fulfillment] gave before the requests is what it gives after
    them. *)
Theorem served_requests_release_nothing (client : Client)
    (faucet : Faucet) (rs : list Request) (s : Sys) :
  runs_alone client -> faucet_alone faucet ->
  (exists txs,
      submitted (serve client faucet rs s) = submitted s ++ txs
      /\ Forall (fun tx => Xrpl.fulfillment_of tx = None) txs)
  /\ (exists rows,
        db (serve client faucet rs s) = db s ++ rows
        /\ Forall (fun x => status x = LOCKED) rows)
  /\ (forall o q f,
        fst (get_fulfillment o q s) = Ok (Some f) ->
        fst (get_fulfillment o q (serve client faucet rs s)) = Ok (Some f)).
Proof.
  intros Hc Hf.
  assert (G : exists rows,
             db (serve client faucet rs s) = db s ++ rows
             /\ Forall (fun x => status x = LOCKED) rows).
  { unfold serve. revert s. induction rs as [|r rs IH]; intros s; simpl.
    - exists []. rewrite app_nil_r. auto.
    - destruct (handle_grows client faucet r s Hc Hf) as (l1 & E1 & F1).
      destruct (IH (snd (handle client faucet r s))) as (l2 & E2 & F2).
      exists (l1 ++ l2). rewrite E2, E1, app_assoc.
      split; [reflexivity | apply Forall_app; auto]. }
  assert (L : exists txs,
             submitted (serve client faucet rs s) = submitted s ++ txs
             /\ Forall (fun tx => Xrpl.fulfillment_of tx = None) txs).
  { clear G. unfold serve. revert s.
    induction rs as [|r rs IH]; intros s; simpl.
    - exists []. rewrite app_nil_r. auto.
    - destruct (handle_log client faucet r s) as (l1 & E1 & F1).
      destruct (IH (snd (handle client faucet r s))) as (l2 & E2 & F2).
      exists (l1 ++ l2). rewrite E2, E1, app_assoc.
      split; [reflexivity | apply Forall_app; auto]. }
  split; [exact L|]. split; [exact G|].
  destruct G as (rows & E & _). intros o q f Hget.
  exact (get_fulfillment_grown o q f s _ rows E Hget).
Qed.

Lemma ledger_up_alone : runs_alone Samples.ledger_up.
Proof.
  intros tx w s. unfold submit.
  destruct (Xrpl.model_errors tx); reflexivity.
Qed.

Lemma faucet_up_alone : faucet_alone Cases.faucet_up.
Proof. intros s. reflexivity. Qed.

Lemma served_requests_release_nothing_witness :
  fst (get_fulfillment "rOWNER1" 5
         (serve Samples.ledger_up Cases.faucet_up
            [ POST_milestone_approve Cases.approve_req;
              POST_milestone_create Cases.create_req;
              GET_milestones; POST_wallet;
              POST_milestone_approve Cases.approve_req ]
            Samples.sys_locked))
  = Ok (Some "c2VjcmV0").
Proof.
  apply (served_requests_release_nothing Samples.ledger_up Cases.faucet_up
           _ Samples.sys_locked ledger_up_alone faucet_up_alone).
  reflexivity.
Defined.

(** X21: Requests are served one at a time and nothing else writes the
    database.  Then no request deletes or moves a row or changes its
    identity, the release columns keep following the status, and the
    rowids and the pairs [(owner_address, offer_sequence)] stay
    unique. *)
Theorem served_requests_keep_the_table_sound (client : Client)
    (faucet : Faucet) (rs : list Request) (s : Sys) :
  runs_alone client -> faucet_alone faucet ->
  persists (db s) (db (serve client faucet rs s))
  /\ (Forall well_stamped (db s) ->
      Forall well_stamped (db (serve client faucet rs s)))
  /\ (NoDup (map rowid (db s)) /\ idx_milestone_owner_seq (db s) ->
      NoDup (map rowid (db (serve client faucet rs s)))
      /\ idx_milestone_owner_seq (db (serve client faucet rs s))).
Proof.
  intros Hc Hf. unfold serve. revert s.
  induction rs as [|r rs IH]; intros s; simpl.
  - split; [apply persists_refl | auto].
  - pose proof (handle_step client faucet r s Hc Hf) as Hstep.
    destruct (IH (snd (handle client faucet r s))) as (P & W & U).
    split; [eapply persists_trans; [apply step_persists; exact Hstep
                                   | exact P]|].
    split.
    + intros H. apply W. apply (step_well_stamped (db s)); assumption.
    + intros H. apply U. apply (step_unique (db s)); assumption.
Qed.

Lemma served_requests_keep_the_table_sound_witness :
  idx_milestone_owner_seq
    (db (serve Samples.ledger_up Cases.faucet_up
           [ POST_milestone_create Cases.create_req;
             POST_milestone_create Cases.create_req;
             POST_milestone_approve Cases.approve_req ]
           Samples.sys_empty)).
Proof.
  destruct (served_requests_keep_the_table_sound Samples.ledger_up
              Cases.faucet_up
              [ POST_milestone_create Cases.create_req;
                POST_milestone_create Cases.create_req;
                POST_milestone_approve Cases.approve_req ]
              Samples.sys_empty ledger_up_alone faucet_up_alone)
    as (_ & _ & U).
  apply U. split; constructor.
Defined.

End Serving.

(* ================================================================== *)
(** ** storage.py: the listing after a write *)

Section Listing_after_writes.
Import Db Storage Calls Props.

Lemma insert_desc_map (F : Row -> Row) (r : Row) (l : list Row) :
  (forall x, created_at (F x) = created_at x) ->
  insert_desc (F r) (map F l) = map F (insert_desc r l).
Proof.
  intros HF. induction l as [|x l IH]; simpl; [reflexivity|].
  rewrite !HF. destruct (created_at x <=? created_at r); simpl;
    [reflexivity|].
  rewrite IH. reflexivity.
Qed.

Lemma order_by_map (F : Row -> Row) (t : Table) :
  (forall x, created_at (F x) = created_at x) ->
  order_by_created_at_desc (map F t) = map F (order_by_created_at_desc t).
Proof.
  intros HF. unfold order_by_created_at_desc.
  induction t as [|r t IH]; simpl; [reflexivity|].
  rewrite IH. apply insert_desc_map. exact HF.
Qed.

Lemma order_by_newest_last (t : Table) (r : Row) :
  (forall x, In x t -> created_at x < created_at r) ->
  order_by_created_at_desc (t ++ [r]) = r :: order_by_created_at_desc t.
Proof.
  unfold order_by_created_at_desc. induction t as [|x t IH]; intros H;
    [reflexivity|].
  simpl. rewrite IH by (intros y Hy; apply H; right; exact Hy).
  simpl.
  assert (Hx : created_at x < created_at r) by (apply H; left; reflexivity).
  destruct (created_at r <=? created_at x) eqn:E; [|reflexivity].
  apply Z.leb_le in E. lia.
Qed.

(** X22: The listing after [mark_released] is the listing before it, entry
    by entry in the same order, with the rows of the released pair
    stamped: a release never reorders, adds or drops an entry. *)
Theorem listing_after_release (o : string) (q : Z) (h : string) (s : Sys) :
  exists rows,
    fst (list_milestones s) = Ok (map summary rows)
    /\ fst (list_milestones (snd (mark_released o q h s)))
       = Ok (map summary (update_released h (clock s) o q rows))
    /\ Permutation (db s) rows.
Proof.
  exists (order_by_created_at_desc (db s)).
  rewrite mark_released_eq, !list_milestones_eq. cbn [fst snd set_db db].
  split; [reflexivity|]. split; [|apply order_by_perm].
  unfold update_released at 1. rewrite order_by_map; [reflexivity|].
  intros x. destruct (matches o q x); reflexivity.
Qed.

(** X23: After [save_milestone] for a fresh pair whose sequence fits a
    64-bit cell the listing has exactly one more entry, the LOCKED
    summary of the new milestone; when the clock is past every stored
    creation time, that entry comes first and the rest of the listing
    is unchanged. *)
Theorem listing_after_save (tx o : string) (q : Z) (f : string) (s : Sys) :
  int64 q = true -> fresh o q (db s) ->
  exists before after,
    fst (list_milestones s) = Ok before
    /\ fst (list_milestones (snd (save_milestone tx o q f s))) = Ok after
    /\ Permutation
         ([ ("escrow_tx_hash", VText tx); ("owner_address", VText o);
            ("offer_sequence", VInt q); ("status", VText "LOCKED");
            ("created_at", VInt (clock s)); ("released_tx_hash", VNull);
            ("released_at", VNull) ] :: before) after
    /\ ((forall r, In r (db s) -> created_at r < clock s) ->
        after = [ ("escrow_tx_hash", VText tx); ("owner_address", VText o);
                  ("offer_sequence", VInt q); ("status", VText "LOCKED");
                  ("created_at", VInt (clock s));
                  ("released_tx_hash", VNull); ("released_at", VNull) ]
                :: before).
Proof.
  intros Hr Hf. pose proof (proj2 (fresh_iff o q (db s)) Hf) as E.
  rewrite save_milestone_cases, Hr, E.
  rewrite !list_milestones_eq. cbn [fst snd set_db db].
  set (row := mkRow (next_rowid (db s)) tx o q f LOCKED (clock s) None None).
  assert (Hrow : summary row
                 = [ ("escrow_tx_hash", VText tx); ("owner_address", VText o);
                     ("offer_sequence", VInt q); ("status", VText "LOCKED");
                     ("created_at", VInt (clock s));
                     ("released_tx_hash", VNull); ("released_at", VNull) ]).
  { unfold summary, row.
    change (offer_sequence (mkRow (next_rowid (db s)) tx o q f LOCKED
                                  (clock s) None None))
      with (wrap64 q).
    rewrite (wrap64_id q Hr). reflexivity. }
  exists (map summary (order_by_created_at_desc (db s))),
         (map summary (order_by_created_at_desc (db s ++ [row]))).
  split; [reflexivity|]. split; [reflexivity|]. rewrite <- Hrow. split.
  - change (Permutation
              (map summary (row :: order_by_created_at_desc (db s)))
              (map summary (order_by_created_at_desc (db s ++ [row])))).
    apply Permutation_map.
    eapply perm_trans; [|apply order_by_perm].
    eapply perm_trans; [apply perm_skip, Permutation_sym, order_by_perm|].
    apply Permutation_cons_append.
  - intros Hclock. rewrite order_by_newest_last; [reflexivity|].
    exact Hclock.
Qed.

Lemma listing_after_save_witness :
  exists before,
    fst (list_milestones Samples.sys_locked) = Ok before
    /\ fst (list_milestones
              (snd (save_milestone "ESCROWTX3" "rOWNER3" 7 "bmV3"
                                   Samples.sys_locked)))
       = Ok ([ ("escrow_tx_hash", VText "ESCROWTX3");
               ("owner_address", VText "rOWNER3");
               ("offer_sequence", VInt 7); ("status", VText "LOCKED");
               ("created_at", VInt 200); ("released_tx_hash", VNull);
               ("released_at", VNull) ] :: before).
Proof.
  assert (F : fresh "rOWNER3" 7 (db Samples.sys_locked))
    by (apply fresh_iff; reflexivity).
  destruct (listing_after_save "ESCROWTX3" "rOWNER3" 7 "bmV3"
              Samples.sys_locked eq_refl F)
    as (before & after & B & A & _ & N).
  exists before. split; [exact B|]. rewrite A. f_equal. apply N.
  intros r [<- | [<- | []]]; reflexivity.
Defined.

End Listing_after_writes.

(* ================================================================== *)
(** ** escrows.py: a rejected credential *)

Section Rejected_seed.
Import Db Storage Calls Escrows.

(** X24: [Wallet(seed=...)] is the first statement of both operations: when
    it raises, the operation raises the same exception with nothing
    drawn from the entropy source, nothing read or written in the
    table, and no ledger call. *)
Theorem rejected_seed_changes_nothing (client : Client)
    (seed dest amt o : string) (q : Z) (s : Sys) (e : Exn) :
  wallet_of_seed client seed = Raise e ->
  create_milestone_escrow client seed dest amt s = (Raise e, s)
  /\ approve_milestone client seed o q s = (Raise e, s).
Proof.
  intros Hw. rewrite create_milestone_escrow_eq, approve_milestone_eq, Hw.
  split; reflexivity.
Qed.

Lemma rejected_seed_changes_nothing_witness :
  create_milestone_escrow Cases.ledger_bad_seed "not a seed" "rDEST1"
                          "1000000" Samples.sys_locked
  = (Raise (XRPLException "invalid seed"), Samples.sys_locked)
  /\ approve_milestone Cases.ledger_bad_seed "not a seed" "rOWNER1" 5
                       Samples.sys_locked
     = (Raise (XRPLException "invalid seed"), Samples.sys_locked).
Proof.
  apply (rejected_seed_changes_nothing Cases.ledger_bad_seed "not a seed"
           "rDEST1" "1000000" "rOWNER1" 5 Samples.sys_locked
           (XRPLException "invalid seed") eq_refl).
Defined.

End Rejected_seed.
